(** * SocialHub backend: sessions, bearer authentication and daily upload quota

    A shallow embedding of [main.py]: the handlers [signup], [login],
    [uploads_stats], [upload] and [ai_edit], the dependency
    [get_user_from_token] and the helpers [create_session] and
    [get_daily_count], written as computations in a state-and-exception monad
    over the document store.

    Conventions.
    - A Python [str] is a [string]; the characters of the Authorization header
      are Latin-1 code points, which is how the HTTP layer decodes header
      bytes.
    - A [datetime] in UTC is the number of microseconds since the epoch; a
      datetime that main.py hands to [insert_one] or [update_one] is kept by
      the store in whole milliseconds ([bson_datetime]).
    - A collection of the store is the list of its documents in insertion
      order; [find_one] returns the first match.
    - [datetime.now], [secrets.token_urlsafe] and the identifiers generated by
      the store are oracles of the world: the n-th call returns the n-th value.
    - [raise] keeps the writes made before it: nothing is rolled back. *)

From Stdlib Require Import String Ascii List ZArith NArith Lia Bool PeanoNat.
From Stdlib Require Import Decimal DecimalString DecimalNat.
From Stdlib Require Import PrimFloat.
Import ListNotations.
Open Scope string_scope.

(** ** Python strings *)

Definition code (c : ascii) : N := N_of_ascii c.

(** [str.isspace] on the code points below 256: what [str.split()] splits on. *)
Definition isspace (c : ascii) : bool :=
  let n := code c in
  (((9 <=? n) && (n <=? 13)) || ((28 <=? n) && (n <=? 32))
   || (n =? 133) || (n =? 160))%N.

(** [str.lower] on one code point below 256. *)
Definition lower_char (c : ascii) : ascii :=
  let n := code c in
  if (((65 <=? n) && (n <=? 90))
      || ((192 <=? n) && (n <=? 222) && negb (n =? 215)))%N
  then ascii_of_N (n + 32) else c.

Fixpoint lower (s : string) : string :=
  match s with
  | EmptyString => EmptyString
  | String c r => String (lower_char c) (lower r)
  end.

(** [s.split()]: the maximal runs of non-space characters, [cur] being the
    run read so far. *)
Fixpoint split_from (cur s : string) : list string :=
  match s with
  | EmptyString => match cur with EmptyString => [] | _ => [cur] end
  | String c r =>
      if isspace c
      then match cur with
           | EmptyString => split_from EmptyString r
           | _ => cur :: split_from EmptyString r
           end
      else split_from (cur ++ String c EmptyString) r
  end.

Definition split (s : string) : list string := split_from EmptyString s.

(** [str(n)] for a non-negative [int]. *)
Definition str_int (n : nat) : string := NilEmpty.string_of_uint (Nat.to_uint n).

Definition is_digit (c : ascii) : bool :=
  ((48 <=? code c) && (code c <=? 57))%N.

(** The alphabet of [secrets.token_urlsafe]: base64url without padding. *)
Definition urlsafe_char (c : ascii) : bool :=
  let n := code c in
  (((65 <=? n) && (n <=? 90)) || ((97 <=? n) && (n <=? 122))
   || ((48 <=? n) && (n <=? 57)) || (n =? 45) || (n =? 95))%N.

Fixpoint all_chars (p : ascii -> bool) (s : string) : bool :=
  match s with
  | EmptyString => true
  | String c r => p c && all_chars p r
  end.

Definition urlsafe (s : string) : bool :=
  negb (s =? "") && all_chars urlsafe_char s.

(** ** datetime and timedelta *)

Definition datetime := Z.

Definition timedelta (days : Z) : Z := (days * 86400000000)%Z.

(** [dt.replace(hour=0, minute=0, second=0, microsecond=0)] *)
Definition midnight (dt : datetime) : datetime :=
  (dt - dt mod timedelta 1)%Z.

(** A [datetime] as the store keeps it: BSON holds whole milliseconds, so a
    value written by [insert_one] or [update_one] is read back cut down to
    the millisecond. *)
Definition bson_datetime (dt : datetime) : datetime :=
  (dt - dt mod 1000)%Z.

(** ** Documents (schemas.py and the dictionaries built in main.py) *)

Module User.
Record t := mk {
    _id : string;                  (* str(user["_id"]) *)
    name : string;
    email : string;
    password_hash : option string; (* None: key absent *)
    plan : option string;          (* None: key absent *)
    avatar_url : option string }.
End User.

Module Session.
Record t := mk {
    token : string;
    user_id : string;
    created_at : datetime;
    expires_at : option datetime   (* None: key absent *) }.
End Session.

Module UploadLog.
Record t := mk {
    _id : string;
    user_id : string;
    media_type : string;
    caption : option string;
    platforms : list string;
    status : string;
    error : option string;
    created_at : datetime }.
End UploadLog.

Module AiJob.
Record t := mk {
    _id : string;
    user_id : string;
    source_url : option string;
    operations : list string;
    status : string;
    created_at : datetime }.
End AiJob.

(** The collections of [db] that the handlers below touch. *)
Record Database := mkDatabase {
  user : list User.t;
  session : list Session.t;
  uploadlog : list UploadLog.t;
  aijob : list AiJob.t }.

(** ** Request bodies and responses *)

Record SignupBody := mkSignupBody
  { su_name : string; su_email : string; su_password : string }.

Record LoginBody := mkLoginBody
  { li_email : string; li_password : string }.

Record UploadBody := mkUploadBody
  { up_media_type : string; up_caption : option string;
    up_platforms : list string }.

Record AiEditBody := mkAiEditBody
  { ai_source_url : option string; ai_operations : list string }.

Record UserView := mkUserView
  { v_id : string; v_name : string; v_email : string; v_plan : string }.

Record AuthResponse := mkAuthResponse
  { r_token : string; r_user : UserView }.

Record StatsResponse := mkStatsResponse
  { st_plan : string; st_limit : option nat; st_used : nat }.

Record UploadResponse := mkUploadResponse
  { ur_status : string; ur_log_id : string }.

Record AiEditResponse := mkAiEditResponse
  { ar_job_id : string; ar_status : string }.

(** ** The world and the monad *)

Inductive Exn :=
| HTTPException (status_code : nat) (detail : string)
| InvalidId.                       (* bson.errors.InvalidId *)

Record World := mkWorld {
  db : Database;
  clock : nat -> datetime;         (* n-th value of datetime.now(timezone.utc) *)
  ticks : nat;
  entropy : nat -> string;         (* n-th value of secrets.token_urlsafe(32) *)
  draws : nat;
  oids : nat -> string;            (* n-th identifier generated by the store *)
  minted : nat }.

Definition M (A : Type) : Type := World -> (Exn + A) * World.

Definition ret {A} (a : A) : M A := fun w => (inr a, w).

Definition raise {A} (e : Exn) : M A := fun w => (inl e, w).

Definition bind {A B} (c : M A) (k : A -> M B) : M B :=
  fun w => match c w with
           | (inr a, w') => k a w'
           | (inl e, w') => (inl e, w')
           end.

Notation "x <- c ;; k" := (bind c (fun x => k))
  (at level 61, c at next level, right associativity).

Definition with_db (d : Database) (w : World) : World :=
  mkWorld d (clock w) (ticks w) (entropy w) (draws w) (oids w) (minted w).

Definition get_db : M Database := fun w => (inr (db w), w).

Definition modify_db (f : Database -> Database) : M unit :=
  fun w => (inr tt, with_db (f (db w)) w).

(** [datetime.now(timezone.utc)] *)
Definition utcnow : M datetime :=
  fun w => (inr (clock w (ticks w)),
            mkWorld (db w) (clock w) (S (ticks w)) (entropy w) (draws w)
                    (oids w) (minted w)).

(** [secrets.token_urlsafe(32)] *)
Definition token_urlsafe : M string :=
  fun w => (inr (entropy w (draws w)),
            mkWorld (db w) (clock w) (ticks w) (entropy w) (S (draws w))
                    (oids w) (minted w)).

Definition fresh_oid : M string :=
  fun w => (inr (oids w (minted w)),
            mkWorld (db w) (clock w) (ticks w) (entropy w) (draws w)
                    (oids w) (S (minted w))).

(** ** The store *)

Definition find_one {A} (q : A -> bool) (coll : list A) : option A := find q coll.

Definition count_documents {A} (q : A -> bool) (coll : list A) : nat :=
  length (filter q coll).

Definition insert_user (u : User.t) (d : Database) : Database :=
  mkDatabase (user d ++ [u]) (session d) (uploadlog d) (aijob d).

Definition insert_session (s : Session.t) (d : Database) : Database :=
  mkDatabase (user d) (session d ++ [s]) (uploadlog d) (aijob d).

Definition insert_uploadlog (l : UploadLog.t) (d : Database) : Database :=
  mkDatabase (user d) (session d) (uploadlog d ++ [l]) (aijob d).

Definition insert_aijob (j : AiJob.t) (d : Database) : Database :=
  mkDatabase (user d) (session d) (uploadlog d) (aijob d ++ [j]).

(** Modelled from the spec: [create_document] of the [database] module, which
    main.py imports and whose source is not part of the files at hand.  The
    store adapter persists the record, stamps it with its creation timestamp
    and returns the identifier of the new document; [doc] builds the stored
    document from the generated identifier and the timestamp. *)
Definition create_document {A} (insert : A -> Database -> Database)
    (doc : string -> datetime -> A) : M string :=
  oid <- fresh_oid ;;
  now <- utcnow ;;
  _ <- modify_db (insert (doc oid now)) ;;
  ret oid.

(** ** main.py *)

(** [PLATFORM_LIMITS]; the value [None] of "ultra_pro" means unlimited. *)
Definition PLATFORM_LIMITS : list (string * option nat) :=
  [ ("free", Some 4); ("mid_pro", Some 16); ("pro", Some 50);
    ("ultra_pro", None) ].

(** [d.get(key)]: the value under [key], [None] when the key is absent. *)
Fixpoint dict_get (d : list (string * option nat)) (key : string) : option nat :=
  match d with
  | [] => None
  | (k, v) :: r => if k =? key then v else dict_get r key
  end.

(** [user.get("plan", "free")] *)
Definition get_plan (u : User.t) : string :=
  match User.plan u with Some p => p | None => "free" end.

(** ** The storefront and account collections

    The collections "socialaccount", "product" and "order" and the handlers
    over them sit beside the core: a [Shop] is a world together with these
    three collections, and [SM] is the monad of the handlers that touch them.
    A field read with [.get] is an [option]: [None] when the key is absent. *)

Module SocialAccount.
Record t := mk {
    _id : string;
    user_id : string;
    platform : string;
    username : string;
    followers : nat;
    access_token : option string;
    last_sync : option datetime;
    status : string;
    created_at : datetime }.
End SocialAccount.

Module Product.
Record t := mk {
    _id : string;
    title : option string;
    description : option string;
    price : option float;
    product_type : option string;
    status : option string;
    user_id : string;
    created_at : datetime;
    updated_at : option datetime }.
End Product.

Module Order.
Record t := mk {
    _id : string;
    user_id : string;
    product_id : string;
    buyer_email : string;
    amount : float;
    currency : string;
    status : string;
    created_at : datetime }.
End Order.

Record Shop := mkShop {
  core : World;
  socialaccount : list SocialAccount.t;
  product : list Product.t;
  order : list Order.t }.

Record LinkAccountBody := mkLinkAccountBody
  { la_platform : string; la_username : string }.

Record ProductBody := mkProductBody
  { pb_title : string; pb_description : option string; pb_price : float;
    pb_product_type : string; pb_status : string }.

Record OrderBody := mkOrderBody
  { ob_product_id : string; ob_buyer_email : string }.

(** An element of the list [list_accounts] returns: the stored document with
    its [_id] replaced by the string [id]. *)
Record AccountView := mkAccountView
  { av_id : string; av_user_id : string; av_platform : string;
    av_username : string; av_followers : nat;
    av_access_token : option string; av_last_sync : option datetime;
    av_status : string; av_created_at : datetime }.

Record ProductView := mkProductView
  { pv_id : string; pv_title : option string; pv_description : option string;
    pv_price : float; pv_product_type : option string; pv_status : string }.

Record OrderResponse := mkOrderResponse
  { or_id : string; or_status : string }.

Definition SM (A : Type) : Type := Shop -> (Exn + A) * Shop.

Definition sret {A} (a : A) : SM A := fun s => (inr a, s).

Definition sraise {A} (e : Exn) : SM A := fun s => (inl e, s).

Definition sbind {A B} (c : SM A) (k : A -> SM B) : SM B :=
  fun s => match c s with
           | (inr a, s') => k a s'
           | (inl e, s') => (inl e, s')
           end.

Notation "x <~ c ;; k" := (sbind c (fun x => k))
  (at level 61, c at next level, right associativity).

Definition with_core (w : World) (s : Shop) : Shop :=
  mkShop w (socialaccount s) (product s) (order s).

(** A computation of the core, run on the core of the shop. *)
Definition lift {A} (c : M A) : SM A :=
  fun s => (fst (c (core s)), with_core (snd (c (core s))) s).

Definition get_shop : SM Shop := fun s => (inr s, s).

Definition modify_shop (f : Shop -> Shop) : SM unit := fun s => (inr tt, f s).

Definition insert_socialaccount (a : SocialAccount.t) (s : Shop) : Shop :=
  mkShop (core s) (socialaccount s ++ [a]) (product s) (order s).

Definition insert_product (p : Product.t) (s : Shop) : Shop :=
  mkShop (core s) (socialaccount s) (product s ++ [p]) (order s).

Definition insert_order (o : Order.t) (s : Shop) : Shop :=
  mkShop (core s) (socialaccount s) (product s) (order s ++ [o]).

Definition set_product (f : list Product.t -> list Product.t) (s : Shop) : Shop :=
  mkShop (core s) (socialaccount s) (f (product s)) (order s).

(** [coll.find(q)]: the matching documents, in order. *)
Definition find_many {A} (q : A -> bool) (coll : list A) : list A := filter q coll.

(** [coll.update_one(q, {"$set": ...})]: the first match is rewritten by [f]. *)
Fixpoint update_one {A} (q : A -> bool) (f : A -> A) (coll : list A) : list A :=
  match coll with
  | [] => []
  | x :: r => if q x then f x :: r else x :: update_one q f r
  end.

(** [coll.delete_one(q)]: the first match is removed. *)
Fixpoint delete_one {A} (q : A -> bool) (coll : list A) : list A :=
  match coll with
  | [] => []
  | x :: r => if q x then r else x :: delete_one q r
  end.

(** Modelled from the spec: [create_document] of the [database] module, on a
    collection of the shop; as [create_document] above, it stamps the record
    with its creation timestamp and returns the new identifier. *)
Definition create_document_in {A} (insert : A -> Shop -> Shop)
    (doc : string -> datetime -> A) : SM string :=
  oid <~ lift fresh_oid ;;
  now <~ lift utcnow ;;
  _ <~ modify_shop (insert (doc oid now)) ;;
  sret oid.

(** [it.get("price", 0)] and [it.get("status", "active")] *)
Definition get_price (p : Product.t) : float :=
  match Product.price p with Some x => x | None => 0%float end.

Definition get_status (p : Product.t) : string :=
  match Product.status p with Some x => x | None => "active" end.

Section Main.

(** [hashlib.sha256(b).hexdigest()] composed with [str.encode]. *)
Variable sha256_hexdigest : string -> string.

(** [bson.ObjectId(s)], as the string of the identifier it denotes;
    [None] when the constructor raises [InvalidId]. *)
Variable ObjectId : string -> option string.

Definition hash_password (pw : string) : string := sha256_hexdigest pw.

Definition create_session (user_id : string) : M string :=
  token <- token_urlsafe ;;
  created <- utcnow ;;
  now <- utcnow ;;
  _ <- modify_db (insert_session
         (Session.mk token user_id (bson_datetime created)
            (Some (bson_datetime (now + timedelta 7)%Z)))) ;;
  ret token.

(** Lines 145-153 of [get_user_from_token]: from the token of a well-formed
    header to the user that owns its session. *)
Definition user_of_token (token : string) : M User.t :=
  d <- get_db ;;
  match find_one (fun s => Session.token s =? token) (session d) with
  | None => raise (HTTPException 401 "Invalid token")
  | Some sess =>
      expired <-
        match Session.expires_at sess with
        | None => ret false
        | Some e => now <- utcnow ;; ret (e <? now)%Z
        end ;;
      if (expired : bool)
      then raise (HTTPException 401 "Session expired")
      else
        match ObjectId (Session.user_id sess) with
        | None => raise InvalidId
        | Some oid =>
            d' <- get_db ;;
            match find_one (fun u => User._id u =? oid) (user d') with
            | None => raise (HTTPException 401 "User not found")
            | Some u => ret u
            end
        end
  end.

Definition get_user_from_token (authorization : option string) : M User.t :=
  match authorization with
  | None | Some EmptyString =>
      raise (HTTPException 401 "Missing Authorization header")
  | Some header =>
      match split header with
      | [scheme; token] =>
          if negb (lower scheme =? "bearer")
          then raise (HTTPException 401 "Invalid Authorization header")
          else user_of_token token
      | _ => raise (HTTPException 401 "Invalid Authorization header")
      end
  end.

(** A handler declared with [user=Depends(get_user_from_token)]. *)
Definition protected {A} (handler : User.t -> M A)
    (authorization : option string) : M A :=
  u <- get_user_from_token authorization ;;
  handler u.

Definition signup (body : SignupBody) : M AuthResponse :=
  d <- get_db ;;
  match find_one (fun u => User.email u =? su_email body) (user d) with
  | Some _ => raise (HTTPException 400 "Email already registered")
  | None =>
      user_id <- create_document insert_user
        (fun oid _ => User.mk oid (su_name body) (su_email body)
                        (Some (hash_password (su_password body)))
                        (Some "free") None) ;;
      token <- create_session user_id ;;
      ret (mkAuthResponse token
             (mkUserView user_id (su_name body) (su_email body) "free"))
  end.

Definition login (body : LoginBody) : M AuthResponse :=
  d <- get_db ;;
  match find_one (fun u => User.email u =? li_email body) (user d) with
  | None => raise (HTTPException 401 "Invalid credentials")
  | Some u =>
      let matches :=
        match User.password_hash u with
        | Some h => h =? hash_password (li_password body)
        | None => false
        end in
      if negb matches
      then raise (HTTPException 401 "Invalid credentials")
      else
        token <- create_session (User._id u) ;;
        ret (mkAuthResponse token
               (mkUserView (User._id u) (User.name u) (User.email u)
                           (get_plan u)))
  end.

(** The filter of [get_daily_count]:
    [{"user_id": user_id, "created_at": {"$gte": start, "$lt": end}}]. *)
Definition in_window (user_id : string) (start stop : datetime)
    (l : UploadLog.t) : bool :=
  (UploadLog.user_id l =? user_id)
  && (start <=? UploadLog.created_at l)%Z
  && (UploadLog.created_at l <? stop)%Z.

Definition get_daily_count (user_id : string) : M nat :=
  now <- utcnow ;;
  let start := midnight now in
  let stop := (start + timedelta 1)%Z in
  d <- get_db ;;
  ret (count_documents (in_window user_id start stop) (uploadlog d)).

Definition uploads_stats_handler (u : User.t) : M StatsResponse :=
  let plan := get_plan u in
  let limit := dict_get PLATFORM_LIMITS plan in
  used <- get_daily_count (User._id u) ;;
  ret (mkStatsResponse plan limit used).

Definition uploads_stats := protected uploads_stats_handler.

Definition quota_detail (used limit : nat) : string :=
  "Daily limit exceeded. " ++ str_int used ++ "/" ++ str_int limit ++ " used.".

Definition upload_handler (body : UploadBody) (u : User.t) : M UploadResponse :=
  let plan := get_plan u in
  let limit := dict_get PLATFORM_LIMITS plan in
  used <- get_daily_count (User._id u) ;;
  let to_add := length (up_platforms body) in
  let queue :=
    log_id <- create_document insert_uploadlog
      (fun oid now => UploadLog.mk oid (User._id u) (up_media_type body)
                        (up_caption body) (up_platforms body) "queued" None now) ;;
    ret (mkUploadResponse "queued" log_id) in
  match limit with
  | Some l =>
      if (l <? used + to_add)%nat
      then raise (HTTPException 429 (quota_detail used l))
      else queue
  | None => queue
  end.

Definition upload (body : UploadBody) := protected (upload_handler body).

Definition ai_edit_handler (body : AiEditBody) (u : User.t) : M AiEditResponse :=
  if negb (get_plan u =? "ultra_pro")
  then raise (HTTPException 403
                "AI video editing is available for Ultra Pro only")
  else
    job_id <- create_document insert_aijob
      (fun oid now => AiJob.mk oid (User._id u) (ai_source_url body)
                        (ai_operations body) "processing" now) ;;
    ret (mkAiEditResponse job_id "processing").

Definition ai_edit (body : AiEditBody) := protected (ai_edit_handler body).

(** ** What the specification calls usage

    The quota engine of the specification measures usage in platform units:
    the sum of the lengths of the platform lists of the caller's logs of the
    day.  [spec_used] is that figure, written after the specification, to be
    compared with [get_daily_count]. *)
Definition spec_used (user_id : string) (now : datetime)
    (logs : list UploadLog.t) : nat :=
  list_sum
    (map (fun l => length (UploadLog.platforms l))
       (filter (in_window user_id (midnight now) (midnight now + timedelta 1)%Z)
          logs)).

(** The figure [get_daily_count] returns when the clock reads [now]: the
    number of the caller's logs of the day. *)
Definition daily_count (user_id : string) (now : datetime)
    (logs : list UploadLog.t) : nat :=
  count_documents
    (in_window user_id (midnight now) (midnight now + timedelta 1)%Z) logs.

(** A later store: the user and session collections have only grown. *)
Definition grows (d d' : Database) : Prop :=
  (exists us, user d' = (user d ++ us)%list) /\
  (exists ss, session d' = (session d ++ ss)%list).

(** The clock readings [from .. upto) of the world fall in one UTC day. *)
Definition same_day (w : World) (from upto : nat) : Prop :=
  forall n, from <= n < upto -> midnight (clock w n) = midnight (clock w from).

(** ** A concrete world

    A digest, an identifier parser and oracles to run the handlers on: the
    clock starts at 01:00 UTC on 2026-11-04 and advances one second per
    reading; the n-th token is "T" followed by n. *)

Definition toy_digest (s : string) : string := "digest:" ++ s.

Definition toy_ObjectId (s : string) : option string :=
  if s =? "" then None else Some s.

Definition t0 : datetime := 1793750400000000%Z.   (* 2026-11-04 00:00:00 UTC *)

Definition toy_clock (n : nat) : datetime :=
  (t0 + 3600000000 + 1000000 * Z.of_nat n)%Z.

Definition w_empty : World :=
  mkWorld (mkDatabase [] [] [] [])
    toy_clock 0 (fun n => "T" ++ str_int n) 0 (fun n => "oid" ++ str_int n) 0.

Definition alice : SignupBody := mkSignupBody "Alice" "a@x.com" "s3cret".

Definition alice_user : User.t :=
  User.mk "oid0" "Alice" "a@x.com" (Some (toy_digest "s3cret")) (Some "free")
    None.

(** The world after Alice signed up: her id is "oid0", her token "T0". *)
Definition w_alice : World :=
  mkWorld
    (mkDatabase [alice_user]
       [Session.mk "T0" "oid0" (toy_clock 1)
          (Some (toy_clock 2 + timedelta 7)%Z)] [] [])
    toy_clock 3 (fun n => "T" ++ str_int n) 1 (fun n => "oid" ++ str_int n) 1.

Definition alice_bearer : option string := Some "Bearer T0".

(** A store whose only user is on plan "ultra_pro" (plans change out of
    band), with one session that does not expire before 2026-11-11. *)
Definition w_ultra : World :=
  mkWorld
    (mkDatabase
       [User.mk "oid7" "Una" "u@x.com" (Some (toy_digest "pw"))
          (Some "ultra_pro") None]
       [Session.mk "T7" "oid7" t0 (Some (t0 + timedelta 7)%Z)] [] [])
    toy_clock 0 (fun n => "U" ++ str_int n) 0 (fun n => "job" ++ str_int n) 0.

(** A store with a session whose user is gone. *)
Definition w_dangling : World :=
  mkWorld
    (mkDatabase [] [Session.mk "T9" "oid9" t0 (Some (t0 + timedelta 7)%Z)] [] [])
    toy_clock 0 (fun n => "V" ++ str_int n) 0 (fun n => "oid" ++ str_int n) 0.

(** The end-to-end scenario of the specification: signup, login, an upload to
    three platforms, then to one, then to one more, reading the statistics
    after the first and the second upload. *)
Definition scenario : M (StatsResponse * StatsResponse * UploadResponse) :=
  _ <- signup alice ;;
  l <- login (mkLoginBody "a@x.com" "s3cret") ;;
  let auth := Some ("Bearer " ++ r_token l) in
  _ <- upload (mkUploadBody "video" None ["ig"; "fb"; "tiktok"]) auth ;;
  st1 <- uploads_stats auth ;;
  _ <- upload (mkUploadBody "video" None ["x"]) auth ;;
  st2 <- uploads_stats auth ;;
  third <- upload (mkUploadBody "video" None ["ig"]) auth ;;
  ret (st1, st2, third).

(** ** The remaining handlers of main.py *)

Definition me_handler (u : User.t) : M UserView :=
  ret (mkUserView (User._id u) (User.name u) (User.email u) (get_plan u)).

Definition me := protected me_handler.

(** A handler of the shop declared with [user=Depends(get_user_from_token)]. *)
Definition sprotected {A} (handler : User.t -> SM A)
    (authorization : option string) : SM A :=
  u <~ lift (get_user_from_token authorization) ;;
  handler u.

Definition account_view (a : SocialAccount.t) : AccountView :=
  mkAccountView (SocialAccount._id a) (SocialAccount.user_id a)
    (SocialAccount.platform a) (SocialAccount.username a)
    (SocialAccount.followers a) (SocialAccount.access_token a)
    (SocialAccount.last_sync a) (SocialAccount.status a)
    (SocialAccount.created_at a).

Definition list_accounts_handler (u : User.t) : SM (list AccountView) :=
  s <~ get_shop ;;
  let items :=
    find_many (fun a => SocialAccount.user_id a =? User._id u)
      (socialaccount s) in
  sret (map account_view items).

Definition list_accounts := sprotected list_accounts_handler.

Definition link_account_handler (body : LinkAccountBody) (u : User.t)
    : SM string :=
  create_document_in insert_socialaccount
    (fun oid now =>
       SocialAccount.mk oid (User._id u) (la_platform body) (la_username body)
         0 None None "connected" now).

Definition link_account (body : LinkAccountBody) :=
  sprotected (link_account_handler body).

Definition product_view (p : Product.t) : ProductView :=
  mkProductView (Product._id p) (Product.title p) (Product.description p)
    (get_price p) (Product.product_type p) (get_status p).

Definition list_products_handler (u : User.t) : SM (list ProductView) :=
  s <~ get_shop ;;
  let items :=
    find_many (fun p => Product.user_id p =? User._id u) (product s) in
  sret (map product_view items).

Definition list_products := sprotected list_products_handler.

Definition create_product_handler (body : ProductBody) (u : User.t)
    : SM string :=
  create_document_in insert_product
    (fun oid now =>
       Product.mk oid (Some (pb_title body)) (pb_description body)
         (Some (pb_price body)) (Some (pb_product_type body))
         (Some (pb_status body)) (User._id u) now None).

Definition create_product (body : ProductBody) :=
  sprotected (create_product_handler body).

(** The filter [{"_id": ObjectId(product_id), "user_id": str(user["_id"])}]. *)
Definition owned_product (oid : string) (u : User.t) (p : Product.t) : bool :=
  (Product._id p =? oid) && (Product.user_id p =? User._id u).

(** The [$set] of [update_product]. *)
Definition set_fields (body : ProductBody) (now : datetime) (p : Product.t)
    : Product.t :=
  Product.mk (Product._id p) (Some (pb_title body)) (pb_description body)
    (Some (pb_price body)) (Some (pb_product_type body))
    (Some (pb_status body)) (Product.user_id p) (Product.created_at p)
    (Some now).

Definition update_product_handler (product_id : string) (body : ProductBody)
    (u : User.t) : SM bool :=
  match ObjectId product_id with
  | None => sraise InvalidId
  | Some oid =>
      s <~ get_shop ;;
      match find_one (owned_product oid u) (product s) with
      | None => sraise (HTTPException 404 "Product not found")
      | Some _ =>
          now <~ lift utcnow ;;
          _ <~ modify_shop
                 (set_product
                    (update_one (fun p => Product._id p =? oid)
                       (set_fields body (bson_datetime now)))) ;;
          sret true
      end
  end.

Definition update_product (product_id : string) (body : ProductBody) :=
  sprotected (update_product_handler product_id body).

Definition delete_product_handler (product_id : string) (u : User.t)
    : SM bool :=
  match ObjectId product_id with
  | None => sraise InvalidId
  | Some oid =>
      _ <~ modify_shop (set_product (delete_one (owned_product oid u))) ;;
      sret true
  end.

Definition delete_product (product_id : string) :=
  sprotected (delete_product_handler product_id).

Definition create_order_handler (body : OrderBody) (u : User.t)
    : SM OrderResponse :=
  match ObjectId (ob_product_id body) with
  | None => sraise InvalidId
  | Some oid =>
      s <~ get_shop ;;
      match find_one (owned_product oid u) (product s) with
      | None => sraise (HTTPException 404 "Product not found")
      | Some prod =>
          order_id <~ create_document_in insert_order
            (fun new_id now =>
               Order.mk new_id (User._id u) (ob_product_id body)
                 (ob_buyer_email body) (get_price prod) "USD" "paid" now) ;;
          sret (mkOrderResponse order_id "paid")
      end
  end.

Definition create_order (body : OrderBody) :=
  sprotected (create_order_handler body).

(** ** Predicates for the properties below *)

(** Every collection of the core has only been appended to. *)
Definition appended (d d' : Database) : Prop :=
  (exists us, user d' = (user d ++ us)%list) /\
  (exists ss, session d' = (session d ++ ss)%list) /\
  (exists ls, uploadlog d' = (uploadlog d ++ ls)%list) /\
  (exists js, aijob d' = (aijob d ++ js)%list).

(** The store keeps [_id] unique within a collection. *)
Definition unique_ids (ps : list Product.t) : Prop :=
  NoDup (map Product._id ps).

(** [s] is a run of whitespace; [s] is a non-empty word without whitespace. *)
Definition blank (s : string) : bool := all_chars isspace s.

Definition word (s : string) : bool :=
  negb (s =? "") && all_chars (fun c => negb (isspace c)) s.

(** A shop on the world after Alice signed up: one product of hers and one
    of another user, which carries neither price nor status. *)
Definition widget : Product.t :=
  Product.mk "p1" (Some "Widget") None (Some 9.5%float) (Some "digital")
    (Some "active") "oid0" t0 None.

Definition gadget : Product.t :=
  Product.mk "p2" (Some "Gadget") None None (Some "physical") None "oid9" t0
    None.

Definition s_alice : Shop := mkShop w_alice [] [widget; gadget] [].

Definition new_price : ProductBody :=
  mkProductBody "Widget" (Some "now dearer") 12.25%float "digital" "active".

(** Alice's world with four of her logs stamped today: the count of a free
    plan at its limit. *)
Definition log_at (n : nat) : UploadLog.t :=
  UploadLog.mk ("log" ++ str_int n) "oid0" "image" None ["ig"] "queued" None
    (toy_clock n).

Definition w_full : World :=
  with_db
    (mkDatabase (user (db w_alice)) (session (db w_alice))
       [log_at 4; log_at 5; log_at 6; log_at 7] [])
    w_alice.

(** A world whose clock reads half a millisecond past [t0] at its first two
    readings and, from the third on, seven days and 300 microseconds past
    [t0]; its store holds Alice and no session. *)
Definition submilli_clock (n : nat) : datetime :=
  if (n <? 2)%nat then (t0 + 500)%Z else (t0 + timedelta 7 + 300)%Z.

Definition w_submilli : World :=
  mkWorld (mkDatabase [alice_user] [] [] [])
    submilli_clock 0 (fun n => "T" ++ str_int n) 0 (fun n => "oid" ++ str_int n) 1.

(** Alice's world with one log of today that targets three platforms. *)
Definition w_three : World :=
  with_db
    (insert_uploadlog
       (UploadLog.mk "log1" "oid0" "video" None ["ig"; "fb"; "tiktok"]
          "queued" None (toy_clock 0))
       (db w_alice))
    w_alice.

(** ** Strings: splitting and the token alphabet *)

Lemma append_empty_r (s : string) : s ++ "" = s.
Proof. induction s as [|c r IH]; simpl; [reflexivity | now rewrite IH]. Qed.

Lemma append_snoc (s t : string) (c : ascii) :
  (s ++ String c "") ++ t = s ++ String c t.
Proof. induction s as [|a r IH]; simpl; [reflexivity | now rewrite IH]. Qed.

Lemma split_from_run (s cur : string) :
  all_chars (fun c => negb (isspace c)) s = true ->
  split_from cur s = match cur ++ s with "" => [] | _ => [cur ++ s] end.
Proof.
  revert cur; induction s as [|c r IH]; intros cur H; simpl.
  - rewrite append_empty_r. reflexivity.
  - simpl in H. apply andb_prop in H as [Hc Hr].
    apply negb_true_iff in Hc. rewrite Hc.
    rewrite (IH _ Hr), append_snoc. reflexivity.
Qed.

Lemma urlsafe_char_not_space (c : ascii) :
  urlsafe_char c = true -> isspace c = false.
Proof.
  destruct c as [[] [] [] [] [] [] [] []]; vm_compute; congruence.
Qed.

Lemma urlsafe_run (s : string) :
  all_chars urlsafe_char s = true ->
  all_chars (fun c => negb (isspace c)) s = true.
Proof.
  induction s as [|c r IH]; simpl; [reflexivity|].
  intros H. apply andb_prop in H as [Hc Hr].
  rewrite (urlsafe_char_not_space _ Hc), (IH Hr). reflexivity.
Qed.

Lemma split_bearer (tok : string) :
  urlsafe tok = true -> split ("Bearer " ++ tok) = ["Bearer"; tok].
Proof.
  unfold urlsafe. intros H. apply andb_prop in H as [Hne Hall].
  apply negb_true_iff, String.eqb_neq in Hne.
  change (split ("Bearer " ++ tok)) with ("Bearer" :: split_from "" tok).
  rewrite (split_from_run _ _ (urlsafe_run _ Hall)). simpl.
  destruct tok; [contradiction | reflexivity].
Qed.

(** ** Strings: the detail of a quota failure determines its numbers *)

Lemma append_inj_l (p a b : string) : p ++ a = p ++ b -> a = b.
Proof.
  induction p as [|c r IH]; simpl; intros H; [exact H|].
  injection H as H. exact (IH H).
Qed.

Lemma digits_then_other (s1 s2 r1 r2 : string) (c1 c2 : ascii) :
  all_chars is_digit s1 = true -> all_chars is_digit s2 = true ->
  is_digit c1 = false -> is_digit c2 = false ->
  s1 ++ String c1 r1 = s2 ++ String c2 r2 -> s1 = s2 /\ r1 = r2.
Proof.
  revert s2. induction s1 as [|a s1 IH]; intros [|b s2] H1 H2 Hc1 Hc2 H;
    simpl in *.
  - injection H as _ H. split; [reflexivity | exact H].
  - injection H as Hc _. subst c1. apply andb_prop in H2 as [H2 _]. congruence.
  - injection H as Hc _. subst c2. apply andb_prop in H1 as [H1 _]. congruence.
  - injection H as -> H.
    apply andb_prop in H1 as [_ H1]. apply andb_prop in H2 as [_ H2].
    destruct (IH _ H1 H2 Hc1 Hc2 H) as [-> ->]. split; reflexivity.
Qed.

Lemma str_int_digits (n : nat) : all_chars is_digit (str_int n) = true.
Proof.
  unfold str_int. generalize (Nat.to_uint n).
  induction u as [|u IH|u IH|u IH|u IH|u IH|u IH|u IH|u IH|u IH|u IH];
    simpl; auto.
Qed.

Lemma str_int_inj (a b : nat) : str_int a = str_int b -> a = b.
Proof.
  unfold str_int. intros H.
  apply (f_equal NilEmpty.uint_of_string) in H.
  rewrite !NilEmpty.usu in H. injection H as H.
  apply (f_equal Nat.of_uint) in H.
  rewrite !DecimalNat.Unsigned.of_to in H. exact H.
Qed.

Lemma quota_detail_inj (used limit used' limit' : nat) :
  quota_detail used limit = quota_detail used' limit' ->
  used' = used /\ limit' = limit.
Proof.
  unfold quota_detail. intros H. apply append_inj_l in H.
  change ("/" ++ ?x) with (String "/" x) in H.
  apply digits_then_other in H as [Hu H];
    try apply str_int_digits; try reflexivity.
  change " used." with (String " " "used.") in H.
  apply digits_then_other in H as [Hl _];
    try apply str_int_digits; try reflexivity.
  split; symmetry; apply str_int_inj; assumption.
Qed.

(** ** Lists: [find_one] after an insertion *)

Lemma find_one_app {A} (q : A -> bool) (l l' : list A) :
  find_one q (l ++ l')%list =
  match find_one q l with Some x => Some x | None => find_one q l' end.
Proof.
  unfold find_one. induction l as [|x r IH]; simpl; [reflexivity|].
  destruct (q x); [reflexivity | exact IH].
Qed.

Lemma grows_refl (d : Database) : grows d d.
Proof. split; exists []; symmetry; apply app_nil_r. Qed.

(** ** Running the monad *)

Ltac run :=
  unfold upload, uploads_stats, ai_edit, protected, upload_handler,
    uploads_stats_handler, ai_edit_handler, get_daily_count, signup, login,
    create_session, create_document, get_user_from_token, user_of_token,
    bind, ret, raise, get_db, modify_db, utcnow, token_urlsafe, fresh_oid,
    with_db in *;
  cbn [fst snd db clock ticks entropy draws oids minted
       user session uploadlog aijob insert_user insert_session
       insert_uploadlog insert_aijob] in *.

(** Token resolution reads the store and the clock, and writes nothing. *)
Lemma user_of_token_reads (tok : string) (w : World) :
  exists n, n <= 1 /\
    snd (user_of_token tok w) =
    mkWorld (db w) (clock w) (n + ticks w) (entropy w) (draws w)
            (oids w) (minted w).
Proof.
  run.
  destruct (find_one _ (session (db w))) as [sess|].
  - destruct (Session.expires_at sess) as [e|]; cbn.
    + exists 1. split; [lia|].
      destruct (e <? _)%Z; cbn; [reflexivity|].
      destruct (ObjectId _); cbn; [|reflexivity].
      destruct (find_one _ _); reflexivity.
    + exists 0. split; [lia|]. destruct w; cbn.
      destruct (ObjectId _); cbn; [|reflexivity].
      destruct (find_one _ _); reflexivity.
  - exists 0. split; [lia|]. destruct w; reflexivity.
Qed.

Lemma get_user_from_token_reads (a : option string) (w : World) :
  exists n, n <= 1 /\
    snd (get_user_from_token a w) =
    mkWorld (db w) (clock w) (n + ticks w) (entropy w) (draws w)
            (oids w) (minted w).
Proof.
  assert (Hraise : forall e, exists n, n <= 1 /\
            snd (@raise User.t e w) =
            mkWorld (db w) (clock w) (n + ticks w) (entropy w) (draws w)
                    (oids w) (minted w)).
  { intros e. exists 0. split; [lia|]. destruct w; reflexivity. }
  unfold get_user_from_token.
  destruct a as [[|c h]|]; try apply Hraise.
  destruct (split (String c h)) as [|s [|t [|x r]]]; try apply Hraise.
  destruct (negb _); [apply Hraise | apply user_of_token_reads].
Qed.

Lemma get_user_from_token_db (a : option string) (w : World) :
  db (snd (get_user_from_token a w)) = db w.
Proof.
  destruct (get_user_from_token_reads a w) as (n & _ & ->). reflexivity.
Qed.

(** A header that parses as a bearer credential is resolved by its token. *)
Lemma get_user_from_token_bearer (h scheme tok : string) (w : World) :
  split h = [scheme; tok] -> lower scheme = "bearer" ->
  get_user_from_token (Some h) w = user_of_token tok w.
Proof.
  intros Hs Hl. unfold get_user_from_token.
  destruct h as [|c r]; [discriminate Hs|].
  rewrite Hs, Hl. reflexivity.
Qed.

(** An authenticated request runs its handler on the resolved user. *)
Lemma protected_run {A} (handler : User.t -> M A) (a : option string)
    (u : User.t) (w w1 : World) :
  get_user_from_token a w = (inr u, w1) ->
  protected handler a w = handler u w1 /\ db w1 = db w.
Proof.
  intros Hauth. split.
  - unfold protected, bind. rewrite Hauth. reflexivity.
  - rewrite <- (get_user_from_token_db a w), Hauth. reflexivity.
Qed.

(** ** Bearer header parsing *)

(** C6 (as amended).  A missing header and an empty header both fail with
    401 "Missing Authorization header" (the Unauthenticated failure); a
    non-empty header that does not split into exactly two whitespace-separated
    tokens, or whose first token is not "bearer" up to case, fails with
    401 "Invalid Authorization header" (the MalformedCredential failure).
    Both carry status 401 and differ in their detail; neither touches the
    world. *)
Theorem bearer_header_parsing (a : option string) (w : World) :
  (a = None \/ a = Some "" ->
   get_user_from_token a w =
   (inl (HTTPException 401 "Missing Authorization header"), w)) /\
  (forall h, a = Some h -> h <> "" ->
     length (split h) <> 2 \/ lower (hd "" (split h)) <> "bearer" ->
     get_user_from_token a w =
     (inl (HTTPException 401 "Invalid Authorization header"), w)) /\
  HTTPException 401 "Missing Authorization header" <>
  HTTPException 401 "Invalid Authorization header".
Proof.
  split; [|split].
  - intros [-> | ->]; reflexivity.
  - intros h -> Hne Hbad. unfold get_user_from_token.
    destruct h as [|c r]; [contradiction|].
    destruct (split (String c r)) as [|s [|t [|x l]]]; try reflexivity.
    destruct Hbad as [Hlen | Hlow]; [now elim Hlen|].
    cbn [hd] in Hlow. apply String.eqb_neq in Hlow. rewrite Hlow. reflexivity.
  - discriminate.
Qed.

(** ** Token resolution *)

(** C8.  A bearer token whose session exists and has not expired, and whose
    user id denotes no user of the store, is refused with
    401 "User not found"; the store is left as it was. *)
Theorem dangling_session_unauthenticated
    (h scheme tok : string) (w : World) (sess : Session.t) (oid : string) :
  split h = [scheme; tok] -> lower scheme = "bearer" ->
  find_one (fun s => Session.token s =? tok) (session (db w)) = Some sess ->
  match Session.expires_at sess with
  | Some e => (clock w (ticks w) <= e)%Z
  | None => True
  end ->
  ObjectId (Session.user_id sess) = Some oid ->
  find_one (fun u => User._id u =? oid) (user (db w)) = None ->
  fst (get_user_from_token (Some h) w) =
    inl (HTTPException 401 "User not found") /\
  db (snd (get_user_from_token (Some h) w)) = db w.
Proof.
  intros Hs Hl Hsess Hexp Hoid Huser.
  split; [|apply get_user_from_token_db].
  rewrite (get_user_from_token_bearer _ _ _ _ Hs Hl).
  run. rewrite Hsess.
  destruct (Session.expires_at sess) as [e|]; cbn.
  - apply Z.ltb_ge in Hexp. rewrite Hexp. cbn. rewrite Hoid. cbn.
    rewrite Huser. reflexivity.
  - rewrite Hoid. cbn. rewrite Huser. reflexivity.
Qed.

(** ** Login *)


(** ** The plan gate of ai/edit *)

(** C7.  For a caller that authenticates as [u]: on any plan other than
    "ultra_pro" the request fails with 403 and writes nothing; on
    "ultra_pro" it appends one AI-job document with status "processing" and
    returns that document's id with status "processing". *)
Theorem ai_edit_plan_gate (body : AiEditBody) (a : option string)
    (u : User.t) (w w1 : World) :
  get_user_from_token a w = (inr u, w1) ->
  (get_plan u <> "ultra_pro" ->
   ai_edit body a w =
     (inl (HTTPException 403
             "AI video editing is available for Ultra Pro only"), w1) /\
   db w1 = db w) /\
  (get_plan u = "ultra_pro" ->
   exists w2,
     ai_edit body a w =
       (inr (mkAiEditResponse (oids w1 (minted w1)) "processing"), w2) /\
     aijob (db w2) =
       (aijob (db w) ++
        [AiJob.mk (oids w1 (minted w1)) (User._id u) (ai_source_url body)
           (ai_operations body) "processing" (clock w1 (ticks w1))])%list).
Proof.
  intros Hauth. unfold ai_edit.
  destruct (protected_run (ai_edit_handler body) _ _ _ _ Hauth) as [-> Hdb].
  unfold ai_edit_handler. split.
  - intros Hplan. apply String.eqb_neq in Hplan. rewrite Hplan. cbn.
    split; [reflexivity | exact Hdb].
  - intros Hplan. rewrite Hplan. change ("ultra_pro" =? "ultra_pro") with true.
    cbn [negb]. run. eexists. split; [reflexivity|]. cbn. rewrite Hdb. reflexivity.
Qed.

(** ** Sessions *)

Lemma bson_datetime_bounds (dt : datetime) :
  (dt - 1000 < bson_datetime dt <= dt)%Z.
Proof.
  unfold bson_datetime.
  pose proof (Z.mod_pos_bound dt 1000 ltac:(lia)). lia.
Qed.

(** C3 (as amended).  [create_session] returns the token drawn from the
    entropy source and appends a session whose [created_at] is a first clock
    reading and whose [expires_at] is a second clock reading plus seven
    days, each cut down to whole milliseconds by the store: the stored
    [expires_at] lies less than a millisecond before that reading plus seven
    days.  While the user and session collections only grow, presenting
    that token as a bearer credential yields the user the session was
    created for as long as the current time is not after the stored
    [expires_at], and fails with 401 "Session expired" once the stored
    [expires_at] is before the current time.  Resolving writes nothing, so
    an expired session is never renewed. *)
Theorem create_session_resolves (uid oid : string) (u : User.t) (w : World) :
  let tok := entropy w (draws w) in
  let created := bson_datetime (clock w (ticks w)) in
  let expires := bson_datetime (clock w (S (ticks w)) + timedelta 7)%Z in
  urlsafe tok = true ->
  find_one (fun s => Session.token s =? tok) (session (db w)) = None ->
  ObjectId uid = Some oid ->
  find_one (fun x => User._id x =? oid) (user (db w)) = Some u ->
  exists w1,
    create_session uid w = (inr tok, w1) /\
    db w1 = insert_session (Session.mk tok uid created (Some expires)) (db w) /\
    (clock w (ticks w) - 1000 < created <= clock w (ticks w))%Z /\
    (clock w (S (ticks w)) + timedelta 7 - 1000 < expires
     <= clock w (S (ticks w)) + timedelta 7)%Z /\
    forall w2, grows (db w1) (db w2) ->
      let now := clock w2 (ticks w2) in
      let resolved := fst (get_user_from_token (Some ("Bearer " ++ tok)) w2) in
      ((now <= expires)%Z -> resolved = inr u) /\
      ((expires < now)%Z ->
       resolved = inl (HTTPException 401 "Session expired")) /\
      db (snd (get_user_from_token (Some ("Bearer " ++ tok)) w2)) = db w2.
Proof.
  intros tok created expires Hsafe Hfresh Hoid Huser.
  exists (mkWorld
            (insert_session (Session.mk tok uid created (Some expires)) (db w))
            (clock w) (S (S (ticks w))) (entropy w) (S (draws w)) (oids w)
            (minted w)).
  split; [reflexivity|]. split; [reflexivity|].
  split; [apply bson_datetime_bounds|].
  split; [apply bson_datetime_bounds|].
  cbn [db]. unfold grows. intros w2 [[us Hus] [ss Hss]].
  set (tnow := clock w2 (ticks w2)).
  set (resolved := fst (get_user_from_token (Some ("Bearer " ++ tok)) w2)).
  cbn [user session insert_session] in Hus, Hss.
  assert (Hfind : find_one (fun s => Session.token s =? tok)
                    (session (db w2))
                  = Some (Session.mk tok uid created (Some expires))).
  { rewrite Hss, !find_one_app, Hfresh. cbn.
    rewrite String.eqb_refl. reflexivity. }
  assert (Hu : find_one (fun x => User._id x =? oid) (user (db w2)) = Some u).
  { rewrite Hus, find_one_app, Huser. reflexivity. }
  assert (Hres : resolved = fst (user_of_token tok w2)).
  { unfold resolved.
    rewrite (get_user_from_token_bearer _ "Bearer" tok);
      [reflexivity | apply split_bearer; exact Hsafe | reflexivity]. }
  rewrite Hres. unfold user_of_token, bind, get_db.
  rewrite Hfind. cbn [Session.expires_at Session.user_id].
  unfold utcnow, ret. fold tnow. split; [|split]; try intros Hnow.
  - apply Z.ltb_ge in Hnow. rewrite Hnow. cbn. rewrite Hoid. cbn.
    rewrite Hu. reflexivity.
  - apply Z.ltb_lt in Hnow. rewrite Hnow. reflexivity.
  - apply get_user_from_token_db.
Qed.

(** ** Signup and login *)


(** ** Authentication: what a success tells, and which errors can occur *)

Lemma user_of_token_inv (tok : string) (u : User.t) (w wa : World) :
  user_of_token tok w = (inr u, wa) ->
  exists sess oid,
    find_one (fun s => Session.token s =? tok) (session (db w)) = Some sess /\
    ObjectId (Session.user_id sess) = Some oid /\
    find_one (fun x => User._id x =? oid) (user (db w)) = Some u.
Proof.
  run. destruct (find_one _ (session (db w))) as [sess|]; [|discriminate].
  intros H. exists sess.
  destruct (Session.expires_at sess) as [e|]; cbn in H.
  - destruct (e <? _)%Z; cbn in H; [discriminate|].
    destruct (ObjectId _) as [oid|]; cbn in H; [|discriminate].
    exists oid. destruct (find_one _ (user _)) as [x|]; [|discriminate].
    injection H as -> _. repeat split.
  - destruct (ObjectId _) as [oid|]; cbn in H; [|discriminate].
    exists oid. destruct (find_one _ (user _)) as [x|]; [|discriminate].
    injection H as -> _. repeat split.
Qed.

(** Two successful resolutions of one header against one store agree. *)
Lemma get_user_from_token_agree (a : option string) (u u' : User.t)
    (w wa w' wa' : World) :
  db w' = db w ->
  get_user_from_token a w = (inr u, wa) ->
  get_user_from_token a w' = (inr u', wa') ->
  u' = u.
Proof.
  intros Hdb H H'. unfold get_user_from_token in H, H'.
  destruct a as [[|c h]|]; try discriminate.
  destruct (split (String c h)) as [|s [|t [|x r]]]; try discriminate.
  destruct (negb _); [discriminate|].
  apply user_of_token_inv in H as (sess & oid & Hs & Ho & Hu).
  apply user_of_token_inv in H' as (sess' & oid' & Hs' & Ho' & Hu').
  rewrite Hdb in Hs', Hu'.
  rewrite Hs in Hs'. injection Hs' as <-.
  rewrite Ho in Ho'. injection Ho' as <-.
  rewrite Hu in Hu'. injection Hu' as <-. reflexivity.
Qed.

Lemma auth_ok (a : option string) (u : User.t) (w wa : World) :
  get_user_from_token a w = (inr u, wa) ->
  db wa = db w /\ clock wa = clock w /\
  ticks w <= ticks wa <= S (ticks w).
Proof.
  intros H. destruct (get_user_from_token_reads a w) as (n & Hn & Hw).
  rewrite H in Hw. cbn in Hw. subst wa. cbn. repeat split; lia.
Qed.

(** Authentication fails with a 401 or with [InvalidId], never otherwise. *)
Lemma get_user_from_token_errors (a : option string) (e : Exn) (w wa : World) :
  get_user_from_token a w = (inl e, wa) ->
  e = InvalidId \/ exists d, e = HTTPException 401 d.
Proof.
  assert (H401 : forall d w0,
            @raise User.t (HTTPException 401 d) w0 = (inl e, wa) ->
            e = InvalidId \/ exists d', e = HTTPException 401 d').
  { intros d w0 [= <- _]. right. now exists d. }
  unfold get_user_from_token.
  destruct a as [[|c h]|]; try apply H401.
  destruct (split (String c h)) as [|s [|t [|x r]]]; try apply H401.
  destruct (negb _); [apply H401|].
  unfold user_of_token, bind, get_db.
  destruct (find_one _ (session (db w))) as [sess|]; [|apply H401].
  destruct (Session.expires_at sess) as [x|]; cbn.
  - destruct (x <? _)%Z; cbn; [apply H401|].
    destruct (ObjectId _); cbn; [|intros [= <- _]; now left].
    destruct (find_one _ (user _)); [discriminate | apply H401].
  - destruct (ObjectId _); cbn; [|intros [= <- _]; now left].
    destruct (find_one _ (user _)); [discriminate | apply H401].
Qed.

(** ** The daily count *)

Lemma get_daily_count_run (uid : string) (w : World) :
  get_daily_count uid w =
  (inr (daily_count uid (clock w (ticks w)) (uploadlog (db w))),
   mkWorld (db w) (clock w) (S (ticks w)) (entropy w) (draws w) (oids w)
           (minted w)).
Proof. reflexivity. Qed.

Lemma daily_count_same_day (uid : string) (t t' : datetime)
    (logs : list UploadLog.t) :
  midnight t = midnight t' -> daily_count uid t logs = daily_count uid t' logs.
Proof. unfold daily_count. intros ->. reflexivity. Qed.

Lemma uploads_stats_inv (a : option string) (r : StatsResponse) (w w1 : World) :
  uploads_stats a w = (inr r, w1) ->
  exists u wa,
    get_user_from_token a w = (inr u, wa) /\
    r = mkStatsResponse (get_plan u) (dict_get PLATFORM_LIMITS (get_plan u))
          (daily_count (User._id u) (clock w (ticks wa)) (uploadlog (db w))) /\
    db w1 = db w /\ clock w1 = clock w /\ ticks w1 = S (ticks wa) /\
    ticks w <= ticks wa <= S (ticks w).
Proof.
  unfold uploads_stats, protected, bind at 1.
  destruct (get_user_from_token a w) as [[e|u] wa] eqn:Hauth; [discriminate|].
  destruct (auth_ok _ _ _ _ Hauth) as (Hdb & Hclock & Hticks).
  unfold uploads_stats_handler, bind. rewrite get_daily_count_run.
  unfold ret. intros [= <- <-]. exists u, wa. cbn.
  rewrite Hdb, Hclock. repeat split; lia.
Qed.

Lemma upload_rejected_inv (body : UploadBody) (a : option string)
    (d : string) (w w1 : World) :
  upload body a w = (inl (HTTPException 429 d), w1) ->
  exists u wa limit,
    get_user_from_token a w = (inr u, wa) /\
    dict_get PLATFORM_LIMITS (get_plan u) = Some limit /\
    limit <
      daily_count (User._id u) (clock w (ticks wa)) (uploadlog (db w))
      + length (up_platforms body) /\
    d = quota_detail
          (daily_count (User._id u) (clock w (ticks wa)) (uploadlog (db w)))
          limit /\
    db w1 = db w /\ clock w1 = clock w /\ ticks w1 = S (ticks wa) /\
    ticks w <= ticks wa <= S (ticks w).
Proof.
  unfold upload, protected, bind at 1.
  destruct (get_user_from_token a w) as [[e|u] wa] eqn:Hauth.
  - intros [= -> _].
    destruct (get_user_from_token_errors _ _ _ _ Hauth) as [H | [d' H]];
      discriminate H.
  - destruct (auth_ok _ _ _ _ Hauth) as (Hdb & Hclock & Hticks).
    unfold upload_handler, bind at 1. rewrite get_daily_count_run.
    rewrite Hdb, Hclock.
    destruct (dict_get PLATFORM_LIMITS (get_plan u)) as [l|] eqn:Hlim;
      [|discriminate].
    destruct (l <? _)%nat eqn:Hover; [|discriminate].
    unfold raise. intros [= <- <-]. apply Nat.ltb_lt in Hover.
    exists u, wa, l. cbn [db clock ticks].
    repeat split; try assumption; try reflexivity; lia.
Qed.

(** What an authenticated upload computes, step by step. *)
Lemma upload_run (body : UploadBody) (a : option string) (u : User.t)
    (w w1 : World) :
  get_user_from_token a w = (inr u, w1) ->
  upload body a w =
  let used :=
    daily_count (User._id u) (clock w1 (ticks w1)) (uploadlog (db w1)) in
  let queued :=
    (inr (mkUploadResponse "queued" (oids w1 (minted w1))),
     mkWorld
       (insert_uploadlog
          (UploadLog.mk (oids w1 (minted w1)) (User._id u)
             (up_media_type body) (up_caption body) (up_platforms body)
             "queued" None (clock w1 (S (ticks w1))))
          (db w1))
       (clock w1) (S (S (ticks w1))) (entropy w1) (draws w1) (oids w1)
       (S (minted w1))) in
  match dict_get PLATFORM_LIMITS (get_plan u) with
  | Some limit =>
      if (limit <? used + length (up_platforms body))%nat
      then (inl (HTTPException 429 (quota_detail used limit)),
            mkWorld (db w1) (clock w1) (S (ticks w1)) (entropy w1) (draws w1)
                    (oids w1) (minted w1))
      else queued
  | None => queued
  end.
Proof.
  intros Hauth. unfold upload.
  destruct (protected_run (upload_handler body) _ _ _ _ Hauth) as [-> _].
  unfold upload_handler, bind at 1. rewrite get_daily_count_run. cbv zeta.
  destruct (dict_get PLATFORM_LIMITS (get_plan u)) as [limit|];
    [destruct (_ <? _)%nat|]; reflexivity.
Qed.

(** ** The quota decision *)

(** The decision of [upload] in terms of the figure [get_daily_count]
    returns.  The table gives free 4, mid_pro 16, pro 50 and no limit for
    ultra_pro.  For a caller that authenticates as [u] and whose daily count
    is [used]: when the plan's limit is absent (so on plan "ultra_pro") the
    upload is accepted, whatever [used] is; when the limit is [limit], the
    upload fails with 429, its detail carrying [used] and [limit], exactly when
    [used] plus the number of requested platforms exceeds [limit], and is
    accepted otherwise.  The detail determines the two numbers it carries.
    An accepted upload appends one "queued" log and returns its id. *)
Theorem upload_quota_decision (body : UploadBody) (a : option string)
    (u : User.t) (used : nat) (w w1 w2 : World) :
  get_user_from_token a w = (inr u, w1) ->
  get_daily_count (User._id u) w1 = (inr used, w2) ->
  let requested := length (up_platforms body) in
  let accepted :=
    exists w3,
      upload body a w =
        (inr (mkUploadResponse "queued" (oids w2 (minted w2))), w3) /\
      uploadlog (db w3) =
        (uploadlog (db w) ++
         [UploadLog.mk (oids w2 (minted w2)) (User._id u) (up_media_type body)
            (up_caption body) (up_platforms body) "queued" None
            (clock w2 (ticks w2))])%list in
  (dict_get PLATFORM_LIMITS "free" = Some 4 /\
   dict_get PLATFORM_LIMITS "mid_pro" = Some 16 /\
   dict_get PLATFORM_LIMITS "pro" = Some 50 /\
   dict_get PLATFORM_LIMITS "ultra_pro" = None) /\
  (forall u1 l1 u2 l2 : nat,
     quota_detail u1 l1 = quota_detail u2 l2 -> u2 = u1 /\ l2 = l1) /\
  (get_plan u = "ultra_pro" -> accepted) /\
  match dict_get PLATFORM_LIMITS (get_plan u) with
  | None => accepted
  | Some limit =>
      (limit < used + requested ->
       upload body a w =
         (inl (HTTPException 429 (quota_detail used limit)), w2)) /\
      (used + requested <= limit -> accepted)
  end.
Proof.
  intros Hauth Hcount. cbv zeta.
  rewrite (upload_run _ _ _ _ _ Hauth).
  rewrite get_daily_count_run in Hcount. injection Hcount as <- <-.
  destruct (protected_run (upload_handler body) _ _ _ _ Hauth) as [_ Hdb].
  cbn [oids minted clock ticks].
  set (used := daily_count _ _ _).
  set (queued := (inr _, _)).
  assert (Hqueued :
    exists w3,
      queued = (inr (mkUploadResponse "queued" (oids w1 (minted w1))), w3) /\
      uploadlog (db w3) =
        (uploadlog (db w) ++
         [UploadLog.mk (oids w1 (minted w1)) (User._id u) (up_media_type body)
            (up_caption body) (up_platforms body) "queued" None
            (clock w1 (S (ticks w1)))])%list).
  { eexists. split; [reflexivity|]. cbn. rewrite Hdb. reflexivity. }
  split; [repeat split|]. split; [exact quota_detail_inj|]. split.
  - intros ->. exact Hqueued.
  - destruct (dict_get PLATFORM_LIMITS (get_plan u)) as [limit|];
      [|exact Hqueued].
    split.
    + intros Hover. apply Nat.ltb_lt in Hover. rewrite Hover. reflexivity.
    + intros Hfit. apply Nat.ltb_ge in Hfit. rewrite Hfit. exact Hqueued.
Qed.

(** ** Reading the statistics *)

(** C9.  Two consecutive successful calls of uploads/stats with the same
    credential, all of whose clock readings fall in one UTC day, answer with
    the same plan, limit and used; neither call changes the store. *)
Theorem uploads_stats_repeatable (a : option string) (r1 r2 : StatsResponse)
    (w w1 w2 : World) :
  uploads_stats a w = (inr r1, w1) ->
  uploads_stats a w1 = (inr r2, w2) ->
  same_day w (ticks w) (ticks w2) ->
  r2 = r1 /\ db w1 = db w /\ db w2 = db w.
Proof.
  intros H1 H2 Hday.
  apply uploads_stats_inv in H1
    as (u & wa & Ha & -> & Hdb1 & Hc1 & Ht1 & Hr1).
  apply uploads_stats_inv in H2
    as (u' & wa' & Ha' & -> & Hdb2 & Hc2 & Ht2 & Hr2).
  assert (u' = u) as -> by
    exact (get_user_from_token_agree _ _ _ _ _ _ _ Hdb1 Ha Ha').
  split; [|split; congruence].
  rewrite Hdb1, Hc1. f_equal.
  rewrite (daily_count_same_day _ (clock w (ticks wa')) (clock w (ticks w)))
    by (apply Hday; lia).
  rewrite (daily_count_same_day _ (clock w (ticks wa)) (clock w (ticks w)))
    by (apply Hday; lia).
  reflexivity.
Qed.

(** ** A rejected upload *)

(** C10.  An upload rejected with 429 leaves the store as it was: no log is
    written.  So when uploads/stats is called before the rejected upload and
    again after it, all within one UTC day, the second call reports the same
    used as the first, which is also the figure the rejection carries. *)
Theorem rejected_upload_writes_nothing (body : UploadBody)
    (a : option string) (d : string) (w w1 : World) :
  upload body a w = (inl (HTTPException 429 d), w1) ->
  db w1 = db w /\
  forall w0 w2 r0 r,
    uploads_stats a w0 = (inr r0, w) ->
    uploads_stats a w1 = (inr r, w2) ->
    same_day w0 (ticks w0) (ticks w2) ->
    st_used r = st_used r0 /\
    exists limit, st_limit r0 = Some limit /\
                  d = quota_detail (st_used r0) limit.
Proof.
  intros Hrej.
  apply upload_rejected_inv in Hrej
    as (u & wa & limit & Ha & Hlim & Hover & -> & Hdb & Hc & Ht & Hr).
  split; [exact Hdb|].
  intros w0 w2 r0 r H0 H2 Hday.
  apply uploads_stats_inv in H0
    as (u0 & wa0 & Ha0 & -> & Hdb0 & Hc0 & Ht0 & Hr0).
  apply uploads_stats_inv in H2
    as (u2 & wa2 & Ha2 & -> & Hdb2 & Hc2 & Ht2 & Hr2).
  assert (u = u0) as -> by
    exact (get_user_from_token_agree _ _ _ _ _ _ _ Hdb0 Ha0 Ha).
  assert (u2 = u0) as ->.
  { apply (get_user_from_token_agree a _ _ w0 wa0 w1 wa2);
      [congruence | assumption | assumption]. }
  cbn [st_used st_limit].
  rewrite Hdb, Hc, Hdb0, Hc0.
  rewrite (daily_count_same_day _ (clock w0 (ticks wa2)) (clock w0 (ticks w0)))
    by (apply Hday; lia).
  rewrite (daily_count_same_day _ (clock w0 (ticks wa)) (clock w0 (ticks w0)))
    by (apply Hday; lia).
  rewrite (daily_count_same_day _ (clock w0 (ticks wa0)) (clock w0 (ticks w0)))
    by (apply Hday; lia).
  split; [reflexivity|]. exists limit. split; [exact Hlim | reflexivity].
Qed.

(** ** Further properties of the core handlers *)

Lemma appended_refl (d : Database) : appended d d.
Proof. repeat split; exists []; symmetry; apply app_nil_r. Qed.

Lemma appended_trans (d1 d2 d3 : Database) :
  appended d1 d2 -> appended d2 d3 -> appended d1 d3.
Proof.
  intros ([a1 H1] & [b1 H2] & [c1 H3] & [e1 H4])
         ([a2 K1] & [b2 K2] & [c2 K3] & [e2 K4]).
  repeat split.
  - exists (a1 ++ a2)%list. rewrite K1, H1, app_assoc. reflexivity.
  - exists (b1 ++ b2)%list. rewrite K2, H2, app_assoc. reflexivity.
  - exists (c1 ++ c2)%list. rewrite K3, H3, app_assoc. reflexivity.
  - exists (e1 ++ e2)%list. rewrite K4, H4, app_assoc. reflexivity.
Qed.

Lemma create_session_appended (uid : string) (w : World) :
  appended (db w) (db (snd (create_session uid w))).
Proof.
  cbn. repeat split;
    first [ exists []; symmetry; apply app_nil_r | eexists; reflexivity ].
Qed.

Lemma protected_appended {A} (handler : User.t -> M A) (a : option string)
    (w : World) :
  (forall u w1, appended (db w1) (db (snd (handler u w1)))) ->
  appended (db w) (db (snd (protected handler a w))).
Proof.
  intros Hh. unfold protected, bind.
  pose proof (get_user_from_token_db a w) as Hdb.
  destruct (get_user_from_token a w) as [[e|u] w1]; cbn [snd] in Hdb.
  - cbn [snd]. rewrite Hdb. apply appended_refl.
  - rewrite <- Hdb. apply Hh.
Qed.


(** X2.  [signup] keeps the emails of the user collection pairwise distinct,
    whatever its outcome. *)
Theorem signup_keeps_emails_unique (body : SignupBody) (w : World) :
  NoDup (map User.email (user (db w))) ->
  NoDup (map User.email (user (db (snd (signup body w))))).
Proof.
  intros Hnd. run.
  destruct (find_one _ (user (db w))) as [u|] eqn:Hfind; [exact Hnd|].
  cbn [snd db user insert_session insert_user]. rewrite map_app. cbn [map User.email].
  apply NoDup_app_remove_l with (l := []). cbn [app].
  apply NoDup_Add with (a := su_email body) (l := map User.email (user (db w))).
  - clear. induction (map User.email (user (db w))) as [|x l IH]; cbn.
    + constructor.
    + constructor. exact IH.
  - split; [exact Hnd|].
    intros Hin. apply in_map_iff in Hin as (x & Hx & Hin).
    pose proof (find_none _ _ Hfind x Hin) as Hneq. cbn in Hneq.
    apply String.eqb_neq in Hneq. contradiction.
Qed.

Lemma create_document_appended {A} (insert : A -> Database -> Database)
    (doc : string -> datetime -> A) (w : World) :
  (forall x d, appended d (insert x d)) ->
  appended (db w) (db (snd (create_document insert doc w))).
Proof. intros H. cbn. apply H. Qed.

Lemma insert_user_appended (x : User.t) (d : Database) :
  appended d (insert_user x d).
Proof.
  cbn. repeat split;
    first [ exists []; symmetry; apply app_nil_r | eexists; reflexivity ].
Qed.

Lemma insert_uploadlog_appended (x : UploadLog.t) (d : Database) :
  appended d (insert_uploadlog x d).
Proof.
  cbn. repeat split;
    first [ exists []; symmetry; apply app_nil_r | eexists; reflexivity ].
Qed.

Lemma insert_aijob_appended (x : AiJob.t) (d : Database) :
  appended d (insert_aijob x d).
Proof.
  cbn. repeat split;
    first [ exists []; symmetry; apply app_nil_r | eexists; reflexivity ].
Qed.

(** X3.  No handler of the core removes or rewrites a stored document:
    after [signup], [login], [me], [uploads_stats], [upload] or [ai_edit],
    whatever the outcome, each collection is the one before with documents
    appended.  In particular no session is ever revoked. *)
Theorem core_handlers_append_only (w : World) (a : option string) :
  (forall body, appended (db w) (db (snd (signup body w)))) /\
  (forall body, appended (db w) (db (snd (login body w)))) /\
  appended (db w) (db (snd (me a w))) /\
  appended (db w) (db (snd (uploads_stats a w))) /\
  (forall body, appended (db w) (db (snd (upload body a w)))) /\
  (forall body, appended (db w) (db (snd (ai_edit body a w)))).
Proof.
  refine (conj _ (conj _ (conj _ (conj _ (conj _ _))))).
  - intros body. unfold signup, bind at 1, get_db at 1.
    destruct (find_one _ (user (db w))); [apply appended_refl|].
    unfold bind at 1.
    pose proof (create_document_appended insert_user
                  (fun oid _ => User.mk oid (su_name body) (su_email body)
                     (Some (hash_password (su_password body)))
                     (Some "free") None) w insert_user_appended) as H1.
    destruct (create_document _ _ w) as [[e|uid] w1]; cbn [snd] in H1 |- *;
      [exact H1|].
    apply (appended_trans _ _ _ H1). unfold bind.
    pose proof (create_session_appended uid w1) as H2.
    destruct (create_session uid w1) as [[e|tok] w2]; exact H2.
  - intros body. unfold login, bind at 1, get_db at 1.
    destruct (find_one _ (user (db w))) as [u|]; [|apply appended_refl].
    destruct (negb _); [apply appended_refl|].
    unfold bind.
    pose proof (create_session_appended (User._id u) w) as H2.
    destruct (create_session (User._id u) w) as [[e|tok] w2]; exact H2.
  - apply protected_appended. intros u w1. apply appended_refl.
  - apply protected_appended. intros u w1. apply appended_refl.
  - intros body. apply protected_appended. intros u w1.
    unfold upload_handler, bind at 1. rewrite get_daily_count_run.
    assert (Hq : forall w2, db w2 = db w1 ->
              appended (db w1)
                (db (snd ((log_id <- create_document insert_uploadlog
                             (fun oid now =>
                                UploadLog.mk oid (User._id u)
                                  (up_media_type body) (up_caption body)
                                  (up_platforms body) "queued" None now) ;;
                           ret (mkUploadResponse "queued" log_id)) w2)))).
    { intros w2 <-. cbn. apply insert_uploadlog_appended. }
    destruct (dict_get PLATFORM_LIMITS (get_plan u)) as [l|];
      [destruct (_ <? _)%nat|]; try (apply Hq; reflexivity).
    apply appended_refl.
  - intros body. apply protected_appended. intros u w1.
    unfold ai_edit_handler. destruct (negb _); [apply appended_refl|].
    cbn. apply insert_aijob_appended.
Qed.

Ltac pick_detail :=
  cbn [In map]; repeat first [left; reflexivity | right].

(** X4.  Whatever the header, a failed authentication is an [InvalidId] of
    the identifier parser or one of five 401 failures, and authentication,
    failed or not, leaves the store as it was. *)
Theorem authentication_failures (a : option string) (w : World) :
  db (snd (get_user_from_token a w)) = db w /\
  forall e, fst (get_user_from_token a w) = inl e ->
    e = InvalidId \/
    In e (map (HTTPException 401)
            [ "Missing Authorization header"; "Invalid Authorization header";
              "Invalid token"; "Session expired"; "User not found" ]).
Proof.
  split; [apply get_user_from_token_db|].
  intros e. unfold get_user_from_token.
  assert (H401 : forall d w0,
            In d [ "Missing Authorization header";
                   "Invalid Authorization header"; "Invalid token";
                   "Session expired"; "User not found" ] ->
            fst (@raise User.t (HTTPException 401 d) w0) = inl e ->
            e = InvalidId \/
            In e (map (HTTPException 401)
                    [ "Missing Authorization header";
                      "Invalid Authorization header"; "Invalid token";
                      "Session expired"; "User not found" ])).
  { intros d w0 Hd [= <-]. right. apply in_map. exact Hd. }
  destruct a as [[|c h]|]; try (apply H401; pick_detail).
  destruct (split (String c h)) as [|s [|t [|x r]]];
    try (apply H401; pick_detail).
  destruct (negb _); [apply H401; pick_detail|].
  unfold user_of_token, bind, get_db.
  destruct (find_one _ (session (db w))) as [sess|];
    [|apply H401; pick_detail].
  destruct (Session.expires_at sess) as [x|]; cbn.
  - destruct (x <? _)%Z; cbn; [intros [= <-]; right; pick_detail|].
    destruct (ObjectId _); cbn; [|intros [= <-]; now left].
    destruct (find_one _ (user _)); cbn;
      [discriminate | intros [= <-]; right; pick_detail].
  - destruct (ObjectId _); cbn; [|intros [= <-]; now left].
    destruct (find_one _ (user _)); cbn;
      [discriminate | intros [= <-]; right; pick_detail].
Qed.

(** ** Splitting a padded header *)

Lemma split_from_blank (p r : string) :
  blank p = true -> split_from "" (p ++ r) = split_from "" r.
Proof.
  unfold blank. induction p as [|c p IH]; cbn; [reflexivity|].
  intros H. apply andb_prop in H as [Hc Hp]. rewrite Hc. exact (IH Hp).
Qed.

Lemma split_from_nospace (s r cur : string) :
  all_chars (fun c => negb (isspace c)) s = true ->
  split_from cur (s ++ r) = split_from (cur ++ s) r.
Proof.
  revert cur. induction s as [|c s IH]; intros cur H; cbn.
  - rewrite append_empty_r. reflexivity.
  - cbn in H. apply andb_prop in H as [Hc Hs].
    apply negb_true_iff in Hc. rewrite Hc, (IH _ Hs), append_snoc.
    reflexivity.
Qed.

Lemma split_from_word_then_blank (s p r : string) :
  word s = true -> blank p = true -> p <> "" ->
  split_from "" (s ++ p ++ r) = s :: split_from "" r.
Proof.
  unfold word. intros Hs Hp Hne. apply andb_prop in Hs as [Hs1 Hs2].
  apply negb_true_iff, String.eqb_neq in Hs1.
  rewrite (split_from_nospace _ _ _ Hs2). cbn [append].
  destruct p as [|c p]; [contradiction|]. unfold blank in Hp. cbn in Hp.
  apply andb_prop in Hp as [Hc Hp]. cbn. rewrite Hc.
  destruct s; [contradiction|]. apply f_equal, split_from_blank. exact Hp.
Qed.

Lemma split_from_last_word (t p : string) :
  word t = true -> blank p = true -> split_from "" (t ++ p) = [t].
Proof.
  unfold word. intros Ht Hp. apply andb_prop in Ht as [Ht1 Ht2].
  apply negb_true_iff, String.eqb_neq in Ht1.
  rewrite (split_from_nospace _ _ _ Ht2). cbn [append].
  destruct t as [|a t]; [contradiction|].
  destruct p as [|c p]; [reflexivity|].
  unfold blank in Hp. cbn in Hp. apply andb_prop in Hp as [Hc Hp].
  cbn. rewrite Hc. apply f_equal.
  rewrite <- (append_empty_r p). rewrite (split_from_blank p "" Hp).
  reflexivity.
Qed.

Lemma split_padded (p1 s p2 t p3 : string) :
  blank p1 = true -> word s = true -> blank p2 = true -> p2 <> "" ->
  word t = true -> blank p3 = true ->
  split (p1 ++ s ++ p2 ++ t ++ p3) = [s; t].
Proof.
  intros H1 Hs H2 Hne Ht H3. unfold split.
  rewrite (split_from_blank _ _ H1).
  rewrite (split_from_word_then_blank _ _ _ Hs H2 Hne).
  rewrite (split_from_last_word _ _ Ht H3). reflexivity.
Qed.

Lemma isspace_lower_char (c : ascii) : isspace (lower_char c) = isspace c.
Proof. destruct c as [[] [] [] [] [] [] [] []]; reflexivity. Qed.

Lemma word_lower (s : string) : word (lower s) = word s.
Proof.
  unfold word. f_equal.
  - destruct s; reflexivity.
  - induction s as [|c s IH]; cbn; [reflexivity|].
    rewrite isspace_lower_char, IH. reflexivity.
Qed.

(** X5.  The header may pad the scheme and the token with any whitespace and
    spell the scheme in any case: such a header is treated exactly as
    "Bearer <token>". *)
Theorem bearer_header_tolerant (p1 scheme p2 tok p3 : string) (w : World) :
  blank p1 = true -> blank p2 = true -> p2 <> "" -> blank p3 = true ->
  lower scheme = "bearer" -> word tok = true ->
  get_user_from_token (Some (p1 ++ scheme ++ p2 ++ tok ++ p3)) w =
  get_user_from_token (Some ("Bearer " ++ tok)) w.
Proof.
  intros H1 H2 Hne H3 Hlow Htok.
  assert (Hs : word scheme = true).
  { rewrite <- word_lower, Hlow. reflexivity. }
  rewrite (get_user_from_token_bearer _ scheme tok w
             (split_padded _ _ _ _ _ H1 Hs H2 Hne Htok H3) Hlow).
  symmetry. apply (get_user_from_token_bearer _ "Bearer" tok w);
    [|reflexivity].
  rewrite <- (append_empty_r tok) at 1.
  apply (split_padded "" "Bearer" " " tok ""); try reflexivity;
    [discriminate | exact Htok].
Qed.

(** ** The day window *)

Lemma midnight_bounds (t : datetime) :
  (midnight t <= t < midnight t + timedelta 1)%Z.
Proof.
  unfold midnight, timedelta.
  pose proof (Z.mod_pos_bound t (1 * 86400000000)%Z ltac:(lia)). lia.
Qed.

Lemma midnight_window (t now : datetime) :
  (midnight now <= t < midnight now + timedelta 1)%Z <->
  midnight t = midnight now.
Proof.
  split.
  - intros H. unfold midnight, timedelta in *.
    set (D := (1 * 86400000000)%Z) in *.
    assert (HD : (0 < D)%Z) by (unfold D; lia).
    rewrite !Z.mod_eq in * by lia.
    replace (now - (now - D * (now / D)))%Z with (D * (now / D))%Z in * by lia.
    replace (t - (t - D * (t / D)))%Z with (D * (t / D))%Z by lia.
    f_equal. symmetry.
    apply (Z.div_unique t D (now / D) (t - D * (now / D))); lia.
  - intros <-. apply midnight_bounds.
Qed.

Lemma in_window_same_day (uid : string) (now : datetime) (l : UploadLog.t) :
  in_window uid (midnight now) (midnight now + timedelta 1)%Z l =
  (UploadLog.user_id l =? uid)
  && (midnight (UploadLog.created_at l) =? midnight now)%Z.
Proof.
  unfold in_window. rewrite <- andb_assoc. f_equal.
  destruct (Z.eqb_spec (midnight (UploadLog.created_at l)) (midnight now))
    as [Heq | Hneq].
  - apply midnight_window in Heq as [H1 H2].
    apply Z.leb_le in H1. apply Z.ltb_lt in H2. rewrite H1, H2. reflexivity.
  - destruct (_ <=? _)%Z eqn:H1; [|reflexivity].
    destruct (_ <? _)%Z eqn:H2; [|reflexivity].
    apply Z.leb_le in H1. apply Z.ltb_lt in H2.
    elim Hneq. apply midnight_window. split; assumption.
Qed.

(** X6.  [get_daily_count] counts exactly the logs of the given user that
    were created on the UTC calendar day of the current clock reading; a
    log stamped at midnight belongs to the day that starts, one stamped a
    microsecond earlier to the day before.  It writes nothing. *)
Theorem daily_count_is_per_calendar_day (uid : string) (w : World) :
  let now := clock w (ticks w) in
  fst (get_daily_count uid w) =
    inr (length
           (filter
              (fun l => (UploadLog.user_id l =? uid)
                        && (midnight (UploadLog.created_at l) =? midnight now)%Z)
              (uploadlog (db w)))) /\
  db (snd (get_daily_count uid w)) = db w /\
  midnight (midnight now) = midnight now /\
  midnight (midnight now - 1)%Z = (midnight now - timedelta 1)%Z.
Proof.
  cbv zeta. rewrite get_daily_count_run. cbn [fst snd db].
  split; [|split; [reflexivity|split]].
  - unfold daily_count, count_documents. do 2 f_equal.
    apply filter_ext. intros l. apply in_window_same_day.
  - apply midnight_window. pose proof (midnight_bounds (clock w (ticks w))).
    lia.
  - set (m := midnight (clock w (ticks w))).
    assert (Hm : midnight m = m).
    { apply midnight_window.
      pose proof (midnight_bounds (clock w (ticks w))). fold m in H. lia. }
    assert (Hk : midnight (m - timedelta 1)%Z = (m - timedelta 1)%Z).
    { unfold midnight in *. unfold timedelta in *.
      replace (m - 1 * 86400000000)%Z
        with (m + (-1) * (1 * 86400000000))%Z by lia.
      rewrite Z.mod_add by lia. lia. }
    rewrite <- Hk. apply midnight_window. rewrite Hk.
    unfold timedelta. lia.
Qed.

(** ** Accepted uploads and the count *)

Lemma daily_count_app (uid : string) (now : datetime)
    (logs : list UploadLog.t) (x : UploadLog.t) :
  daily_count uid now (logs ++ [x]) =
  daily_count uid now logs
  + (if (UploadLog.user_id x =? uid)
        && (midnight (UploadLog.created_at x) =? midnight now)%Z
     then 1 else 0).
Proof.
  unfold daily_count, count_documents.
  rewrite filter_app, length_app. f_equal. cbn [filter].
  rewrite in_window_same_day. destruct (_ && _); reflexivity.
Qed.

Lemma upload_accepted_inv (body : UploadBody) (a : option string) (u : User.t)
    (r : UploadResponse) (w w1 w3 : World) :
  get_user_from_token a w = (inr u, w1) ->
  upload body a w = (inr r, w3) ->
  r = mkUploadResponse "queued" (oids w1 (minted w1)) /\
  uploadlog (db w3) =
    (uploadlog (db w) ++
     [UploadLog.mk (oids w1 (minted w1)) (User._id u) (up_media_type body)
        (up_caption body) (up_platforms body) "queued" None
        (clock w1 (S (ticks w1)))])%list /\
  forall l, dict_get PLATFORM_LIMITS (get_plan u) = Some l ->
    daily_count (User._id u) (clock w1 (ticks w1)) (uploadlog (db w))
    + length (up_platforms body) <= l.
Proof.
  intros Hauth Hup. rewrite (upload_run _ _ _ _ _ Hauth) in Hup.
  destruct (protected_run (upload_handler body) _ _ _ _ Hauth) as [_ Hdb].
  cbv zeta in Hup. rewrite Hdb in Hup.
  destruct (dict_get PLATFORM_LIMITS (get_plan u)) as [l|].
  - destruct (_ <? _)%nat eqn:Hover; [discriminate|].
    injection Hup as <- <-. cbn. repeat split.
    intros l' [= <-]. apply Nat.ltb_ge in Hover. exact Hover.
  - injection Hup as <- <-. cbn. repeat split. discriminate.
Qed.

(** X7.  An accepted upload raises the day's count of its owner by exactly
    one, however many platforms it names, and leaves every other user's
    count, and the count of every other day, as it was. *)
Theorem accepted_upload_counts_once (body : UploadBody) (a : option string)
    (u : User.t) (r : UploadResponse) (w w1 w3 : World) :
  get_user_from_token a w = (inr u, w1) ->
  upload body a w = (inr r, w3) ->
  forall uid now,
    daily_count uid now (uploadlog (db w3)) =
    daily_count uid now (uploadlog (db w))
    + (if (User._id u =? uid)
          && (midnight (clock w1 (S (ticks w1))) =? midnight now)%Z
       then 1 else 0).
Proof.
  intros Hauth Hup uid now.
  destruct (upload_accepted_inv _ _ _ _ _ _ _ Hauth Hup) as (_ & -> & _).
  apply daily_count_app.
Qed.

Lemma unlisted_plan_no_limit (p : string) :
  ~ In p ["free"; "mid_pro"; "pro"] -> dict_get PLATFORM_LIMITS p = None.
Proof.
  intros Hp. cbn [dict_get PLATFORM_LIMITS].
  destruct (String.eqb_spec "free" p) as [<-|_]; [elim Hp; cbn; tauto|].
  destruct (String.eqb_spec "mid_pro" p) as [<-|_]; [elim Hp; cbn; tauto|].
  destruct (String.eqb_spec "pro" p) as [<-|_]; [elim Hp; cbn; tauto|].
  destruct ("ultra_pro" =? p); reflexivity.
Qed.

(** X8.  A plan that is not "free", "mid_pro" or "pro" has no limit, be it
    "ultra_pro" or a name the table does not know: every upload of such a
    caller is queued, whatever was uploaded before. *)
Theorem unlisted_plan_is_unlimited (body : UploadBody) (a : option string)
    (u : User.t) (w w1 : World) :
  get_user_from_token a w = (inr u, w1) ->
  ~ In (get_plan u) ["free"; "mid_pro"; "pro"] ->
  exists w3,
    upload body a w =
    (inr (mkUploadResponse "queued" (oids w1 (minted w1))), w3).
Proof.
  intros Hauth Hplan. rewrite (upload_run _ _ _ _ _ Hauth). cbv zeta.
  rewrite (unlisted_plan_no_limit _ Hplan). eexists. reflexivity.
Qed.

(** X9.  On a plan with a limit, after an accepted upload the owner's count
    for the day is at most the limit plus one, and at most the limit when
    the upload names at least one platform (the check and the log's
    timestamp falling on one UTC day). *)
Theorem accepted_upload_within_limit (body : UploadBody) (a : option string)
    (u : User.t) (r : UploadResponse) (limit : nat) (w w1 w3 : World) :
  get_user_from_token a w = (inr u, w1) ->
  dict_get PLATFORM_LIMITS (get_plan u) = Some limit ->
  upload body a w = (inr r, w3) ->
  midnight (clock w1 (S (ticks w1))) = midnight (clock w1 (ticks w1)) ->
  let after :=
    daily_count (User._id u) (clock w1 (ticks w1)) (uploadlog (db w3)) in
  after <= limit + 1 /\ (up_platforms body <> [] -> after <= limit).
Proof.
  intros Hauth Hlim Hup Hday. cbv zeta.
  destruct (upload_accepted_inv _ _ _ _ _ _ _ Hauth Hup) as (_ & -> & Hfit).
  specialize (Hfit _ Hlim). rewrite daily_count_app.
  cbn [UploadLog.user_id UploadLog.created_at].
  rewrite String.eqb_refl, Hday, Z.eqb_refl. cbn [andb].
  split; [lia|]. intros Hne.
  destruct (up_platforms body) as [|p ps]; [contradiction|].
  cbn [length] in Hfit. lia.
Qed.

(** X10.  An upload that names no platform is accepted whenever the day's
    count does not exceed the limit, also when it equals it; the log is
    counted all the same, so the count can end one above the limit. *)
Theorem empty_upload_accepted_at_limit (body : UploadBody)
    (a : option string) (u : User.t) (limit : nat) (w w1 : World) :
  get_user_from_token a w = (inr u, w1) ->
  dict_get PLATFORM_LIMITS (get_plan u) = Some limit ->
  up_platforms body = [] ->
  let used :=
    daily_count (User._id u) (clock w1 (ticks w1)) (uploadlog (db w)) in
  used <= limit ->
  exists w3,
    upload body a w =
      (inr (mkUploadResponse "queued" (oids w1 (minted w1))), w3) /\
    (midnight (clock w1 (S (ticks w1))) = midnight (clock w1 (ticks w1)) ->
     daily_count (User._id u) (clock w1 (ticks w1)) (uploadlog (db w3)) =
     used + 1).
Proof.
  intros Hauth Hlim Hnil used Hfit.
  destruct (protected_run (upload_handler body) _ _ _ _ Hauth) as [_ Hdb].
  assert (Hrun := upload_run body _ _ _ _ Hauth).
  cbv zeta in Hrun. rewrite Hlim, Hnil, Hdb in Hrun. cbn [length] in Hrun.
  rewrite Nat.add_0_r in Hrun. fold used in Hrun.
  apply Nat.ltb_ge in Hfit. rewrite Hfit in Hrun.
  eexists. split; [exact Hrun|].
  intros Hday. cbn [db insert_uploadlog uploadlog].
  rewrite daily_count_app. cbn [UploadLog.user_id UploadLog.created_at].
  rewrite String.eqb_refl, Hday, Z.eqb_refl. reflexivity.
Qed.

(** ** Tokens at work *)

Lemma find_one_grows_session (q : Session.t -> bool) (d d' : Database)
    (x : Session.t) :
  grows d d' -> find_one q (session d) = Some x ->
  find_one q (session d') = Some x.
Proof.
  intros [_ [ss ->]] H. rewrite find_one_app, H. reflexivity.
Qed.

Lemma find_one_grows_user (q : User.t -> bool) (d d' : Database) (x : User.t) :
  grows d d' -> find_one q (user d) = Some x -> find_one q (user d') = Some x.
Proof.
  intros [[us ->] _] H. rewrite find_one_app, H. reflexivity.
Qed.

Lemma user_of_token_found (tok oid : string) (sess : Session.t) (u : User.t)
    (w : World) :
  find_one (fun s => Session.token s =? tok) (session (db w)) = Some sess ->
  ObjectId (Session.user_id sess) = Some oid ->
  find_one (fun x => User._id x =? oid) (user (db w)) = Some u ->
  fst (user_of_token tok w) =
  match Session.expires_at sess with
  | Some e =>
      if (e <? clock w (ticks w))%Z
      then inl (HTTPException 401 "Session expired") else inr u
  | None => inr u
  end.
Proof.
  intros Hs Ho Hu. unfold user_of_token, bind, get_db. rewrite Hs.
  destruct (Session.expires_at sess) as [e|]; cbn.
  - destruct (e <? _)%Z; cbn; [reflexivity|].
    rewrite Ho. cbn. rewrite Hu. reflexivity.
  - rewrite Ho. cbn. rewrite Hu. reflexivity.
Qed.

Lemma split_bearer_word (tok : string) :
  word tok = true -> split ("Bearer " ++ tok) = ["Bearer"; tok].
Proof.
  intros H. rewrite <- (append_empty_r tok) at 1.
  apply (split_padded "" "Bearer" " " tok ""); try reflexivity;
    [discriminate | exact H].
Qed.

Lemma urlsafe_word (tok : string) : urlsafe tok = true -> word tok = true.
Proof.
  unfold urlsafe, word. intros H. apply andb_prop in H as [H1 H2].
  rewrite H1, (urlsafe_run _ H2). reflexivity.
Qed.

Lemma me_bearer (tok : string) (w : World) :
  word tok = true ->
  fst (me (Some ("Bearer " ++ tok)) w) =
  match fst (user_of_token tok w) with
  | inr u =>
      inr (mkUserView (User._id u) (User.name u) (User.email u) (get_plan u))
  | inl e => inl e
  end.
Proof.
  intros Hw. unfold me, protected, bind.
  rewrite (get_user_from_token_bearer _ "Bearer" tok w
             (split_bearer_word _ Hw) eq_refl).
  destruct (user_of_token tok w) as [[e|u] w1]; reflexivity.
Qed.

(** X11.  The token that [signup] returns authenticates as the user just
    created: while users and sessions are only added and the current time
    is not after the stored [expires_at] (the reading plus seven days, cut
    to the millisecond), [me] with that token answers with the user of the
    signup response.  The token drawn must be URL-safe and new, and the identifier
    generated for the user new and accepted by the identifier parser. *)
Theorem signup_token_authenticates (body : SignupBody) (w : World) :
  let tok := entropy w (draws w) in
  let uid := oids w (minted w) in
  let expires := bson_datetime (clock w (S (S (ticks w))) + timedelta 7)%Z in
  find_one (fun u => User.email u =? su_email body) (user (db w)) = None ->
  urlsafe tok = true ->
  find_one (fun s => Session.token s =? tok) (session (db w)) = None ->
  ObjectId uid = Some uid ->
  find_one (fun x => User._id x =? uid) (user (db w)) = None ->
  exists resp w1,
    signup body w = (inr resp, w1) /\
    r_token resp = tok /\
    forall w2, grows (db w1) (db w2) ->
      (clock w2 (ticks w2) <= expires)%Z ->
      fst (me (Some ("Bearer " ++ tok)) w2) = inr (r_user resp).
Proof.
  intros tok uid expires Hemail Hsafe Hfresh Hoid Hnew.
  unfold signup, bind at 1, get_db at 1. rewrite Hemail. run.
  do 2 eexists. split; [reflexivity|]. split; [reflexivity|].
  cbn [db r_user]. intros w2 Hgrow Hnow.
  rewrite (me_bearer _ _ (urlsafe_word _ Hsafe)).
  rewrite (user_of_token_found tok uid
             (Session.mk tok uid (bson_datetime (clock w (S (ticks w))))
                (Some expires))
             (User.mk uid (su_name body) (su_email body)
                (Some (hash_password (su_password body))) (Some "free") None)).
  - cbn [Session.expires_at]. apply Z.ltb_ge in Hnow. rewrite Hnow.
    reflexivity.
  - apply (find_one_grows_session _ _ _ _ Hgrow).
    cbn [session user insert_session insert_user].
    rewrite find_one_app. fold tok. rewrite Hfresh. cbn.
    rewrite String.eqb_refl. reflexivity.
  - exact Hoid.
  - apply (find_one_grows_user _ _ _ _ Hgrow).
    cbn [session user insert_session insert_user].
    rewrite find_one_app, Hnew. cbn. rewrite String.eqb_refl. reflexivity.
Qed.

(** X12.  The token that a successful [login] returns authenticates as the
    user that logged in: while users and sessions are only added and the
    current time is not after the stored [expires_at] (the reading plus seven
    days, cut to the millisecond), [me] with that token answers with the
    user of the login response.  The token drawn must be URL-safe and new,
    and the user's id must be accepted by the identifier parser and denote
    that user in the store. *)
Theorem login_token_authenticates (body : LoginBody) (u : User.t)
    (oid : string) (w : World) :
  let tok := entropy w (draws w) in
  let expires := bson_datetime (clock w (S (ticks w)) + timedelta 7)%Z in
  find_one (fun x => User.email x =? li_email body) (user (db w)) = Some u ->
  User.password_hash u = Some (hash_password (li_password body)) ->
  urlsafe tok = true ->
  find_one (fun s => Session.token s =? tok) (session (db w)) = None ->
  ObjectId (User._id u) = Some oid ->
  find_one (fun x => User._id x =? oid) (user (db w)) = Some u ->
  exists resp w1,
    login body w = (inr resp, w1) /\
    r_token resp = tok /\
    forall w2, grows (db w1) (db w2) ->
      (clock w2 (ticks w2) <= expires)%Z ->
      fst (me (Some ("Bearer " ++ tok)) w2) = inr (r_user resp).
Proof.
  intros tok expires Hemail Hhash Hsafe Hfresh Hoid Hid.
  unfold login, bind at 1, get_db at 1. rewrite Hemail, Hhash.
  rewrite String.eqb_refl. cbn [negb]. run.
  do 2 eexists. split; [reflexivity|]. split; [reflexivity|].
  cbn [db r_user]. intros w2 Hgrow Hnow.
  rewrite (me_bearer _ _ (urlsafe_word _ Hsafe)).
  rewrite (user_of_token_found tok oid
             (Session.mk tok (User._id u) (bson_datetime (clock w (ticks w)))
                (Some expires))
             u).
  - cbn [Session.expires_at]. apply Z.ltb_ge in Hnow. rewrite Hnow.
    reflexivity.
  - apply (find_one_grows_session _ _ _ _ Hgrow). cbn [session insert_session].
    rewrite find_one_app. fold tok. rewrite Hfresh. cbn.
    rewrite String.eqb_refl. reflexivity.
  - exact Hoid.
  - apply (find_one_grows_user _ _ _ _ Hgrow). exact Hid.
Qed.

(** X13.  A credential that resolved to a user keeps resolving to that user
    as the user and session collections grow, until its session expires: on
    the later store it yields the same user or 401 "Session expired", never
    another user and never another failure. *)
Theorem resolution_survives_growth (a : option string) (u : User.t)
    (w w1 w' : World) :
  get_user_from_token a w = (inr u, w1) ->
  grows (db w) (db w') ->
  fst (get_user_from_token a w') = inr u \/
  fst (get_user_from_token a w') = inl (HTTPException 401 "Session expired").
Proof.
  intros H Hgrow. unfold get_user_from_token in *.
  destruct a as [[|c h]|]; try discriminate.
  destruct (split (String c h)) as [|s [|t [|x r]]]; try discriminate.
  destruct (negb _); [discriminate|].
  apply user_of_token_inv in H as (sess & oid & Hs & Ho & Hu).
  rewrite (user_of_token_found t oid sess u w'
             (find_one_grows_session _ _ _ _ Hgrow Hs) Ho
             (find_one_grows_user _ _ _ _ Hgrow Hu)).
  destruct (Session.expires_at sess) as [e|]; [|now left].
  destruct (e <? _)%Z; [now right | now left].
Qed.

(** ** The accounts and the storefront *)

Lemma sprotected_run {A} (handler : User.t -> SM A) (a : option string)
    (u : User.t) (s : Shop) (w1 : World) :
  get_user_from_token a (core s) = (inr u, w1) ->
  sprotected handler a s = handler u (with_core w1 s).
Proof.
  intros H. unfold sprotected, sbind, lift. rewrite H. reflexivity.
Qed.

Lemma create_document_in_run {A} (insert : A -> Shop -> Shop)
    (doc : string -> datetime -> A) (s : Shop) :
  let w := core s in
  create_document_in insert doc s =
  (inr (oids w (minted w)),
   insert (doc (oids w (minted w)) (clock w (ticks w)))
     (with_core
        (mkWorld (db w) (clock w) (S (ticks w)) (entropy w) (draws w) (oids w)
                 (S (minted w))) s)).
Proof. reflexivity. Qed.

Ltac srun :=
  unfold list_accounts_handler, list_products_handler, link_account_handler,
    create_product_handler, sbind, sret, sraise, get_shop, modify_shop,
    find_many in *;
  cbn [fst snd core socialaccount product order with_core
       insert_socialaccount insert_product insert_order set_product] in *.

(** X14.  Linking an account appends one account of the caller, connected,
    with no followers, token or sync date, and returns its id; the accounts
    any user then lists are those listed before, followed, for the caller,
    by the new one. *)
Theorem link_account_then_list (body : LinkAccountBody) (a : option string)
    (u : User.t) (s : Shop) (w1 : World) :
  get_user_from_token a (core s) = (inr u, w1) ->
  let acc_id := oids w1 (minted w1) in
  let linked :=
    mkAccountView acc_id (User._id u) (la_platform body) (la_username body)
      0 None None "connected" (clock w1 (ticks w1)) in
  exists s',
    link_account body a s = (inr acc_id, s') /\
    forall v before,
      fst (list_accounts_handler v s) = inr before ->
      fst (list_accounts_handler v s') =
      inr (before ++ if User._id u =? User._id v then [linked] else [])%list.
Proof.
  intros H acc_id linked. unfold link_account.
  rewrite (sprotected_run _ _ _ _ _ H). unfold link_account_handler.
  rewrite create_document_in_run. cbv zeta. cbn [core with_core].
  eexists. split; [reflexivity|].
  intros v before. srun. intros [= <-]. f_equal.
  rewrite filter_app, map_app. f_equal. cbn [filter SocialAccount.user_id].
  destruct (User._id u =? User._id v); reflexivity.
Qed.

(** X15.  [list_accounts] and [list_products] answer with the caller's
    documents only, one entry per stored document of the caller and in the
    order of storage, and change no collection. *)
Theorem listings_are_isolated (a : option string) (u : User.t) (s : Shop)
    (w1 : World) :
  get_user_from_token a (core s) = (inr u, w1) ->
  exists accounts products,
    list_accounts a s = (inr accounts, with_core w1 s) /\
    list_products a s = (inr products, with_core w1 s) /\
    Forall (fun x => av_user_id x = User._id u) accounts /\
    map av_id accounts =
      map SocialAccount._id
        (filter (fun x => SocialAccount.user_id x =? User._id u)
           (socialaccount s)) /\
    map pv_id products =
      map Product._id
        (filter (fun x => Product.user_id x =? User._id u) (product s)) /\
    db w1 = db (core s).
Proof.
  intros H. unfold list_accounts, list_products.
  rewrite !(sprotected_run _ _ _ _ _ H). srun.
  do 2 eexists. split; [reflexivity|]. split; [reflexivity|].
  split; [|split; [|split]].
  - apply Forall_forall. intros x Hx.
    apply in_map_iff in Hx as (y & <- & Hy).
    apply filter_In in Hy as [_ Hy]. apply String.eqb_eq in Hy. exact Hy.
  - rewrite map_map. reflexivity.
  - rewrite map_map. reflexivity.
  - rewrite <- (get_user_from_token_db a (core s)), H. reflexivity.
Qed.

(** X16.  Creating a product appends one product of the caller carrying the
    fields of the body, and returns its id; the products any user then lists
    are those listed before, followed, for the caller, by the new one. *)
Theorem create_product_then_list (body : ProductBody) (a : option string)
    (u : User.t) (s : Shop) (w1 : World) :
  get_user_from_token a (core s) = (inr u, w1) ->
  let pid := oids w1 (minted w1) in
  let created :=
    mkProductView pid (Some (pb_title body)) (pb_description body)
      (pb_price body) (Some (pb_product_type body)) (pb_status body) in
  exists s',
    create_product body a s = (inr pid, s') /\
    forall v before,
      fst (list_products_handler v s) = inr before ->
      fst (list_products_handler v s') =
      inr (before ++ if User._id u =? User._id v then [created] else [])%list.
Proof.
  intros H pid created. unfold create_product.
  rewrite (sprotected_run _ _ _ _ _ H). unfold create_product_handler.
  rewrite create_document_in_run. cbv zeta. cbn [core with_core].
  eexists. split; [reflexivity|].
  intros v before. srun. intros [= <-]. f_equal.
  rewrite filter_app, map_app. f_equal. cbn [filter Product.user_id].
  destruct (User._id u =? User._id v); reflexivity.
Qed.

(** ** Updating, deleting and ordering a product *)

Lemma owned_product_spec (oid : string) (u : User.t) (p : Product.t) :
  owned_product oid u p = true <->
  Product._id p = oid /\ Product.user_id p = User._id u.
Proof.
  unfold owned_product. rewrite andb_true_iff, !String.eqb_eq. reflexivity.
Qed.

Lemma unique_ids_eq (ps : list Product.t) (x y : Product.t) :
  unique_ids ps -> In x ps -> In y ps -> Product._id x = Product._id y ->
  x = y.
Proof.
  unfold unique_ids. induction ps as [|p ps IH]; cbn; [tauto|].
  intros Hnd Hx Hy Heq. inversion Hnd as [|? ? Hnotin Hnd']; subst.
  destruct Hx as [-> | Hx], Hy as [-> | Hy]; try reflexivity.
  - elim Hnotin. rewrite Heq. apply in_map. exact Hy.
  - elim Hnotin. rewrite <- Heq. apply in_map. exact Hx.
  - apply IH; assumption.
Qed.

Lemma update_one_unique (oid : string) (f : Product.t -> Product.t)
    (ps : list Product.t) :
  unique_ids ps ->
  update_one (fun p => Product._id p =? oid) f ps =
  map (fun p => if Product._id p =? oid then f p else p) ps.
Proof.
  unfold unique_ids. induction ps as [|p ps IH]; cbn; [reflexivity|].
  intros Hnd. inversion Hnd as [|? ? Hnotin Hnd']; subst.
  destruct (String.eqb_spec (Product._id p) oid) as [Heq | Hneq].
  - f_equal. symmetry. rewrite <- (map_id ps) at 2. apply map_ext_in.
    intros x Hx. destruct (String.eqb_spec (Product._id x) oid) as [Hx'|];
      [|reflexivity].
    elim Hnotin. rewrite Heq, <- Hx'. apply in_map. exact Hx.
  - f_equal. apply IH. exact Hnd'.
Qed.

Lemma delete_one_none {A} (q : A -> bool) (l : list A) :
  find_one q l = None -> delete_one q l = l.
Proof.
  unfold find_one. induction l as [|x l IH]; cbn; [reflexivity|].
  destruct (q x); [discriminate|]. intros H. rewrite (IH H). reflexivity.
Qed.

Lemma delete_one_keeps {A} (q : A -> bool) (l : list A) (x : A) :
  In x l -> q x = false -> In x (delete_one q l).
Proof.
  induction l as [|y l IH]; cbn; [tauto|].
  intros [-> | Hin] Hq.
  - rewrite Hq. now left.
  - destruct (q y); [exact Hin | right; apply IH; assumption].
Qed.

Lemma delete_one_incl {A} (q : A -> bool) (l : list A) (x : A) :
  In x (delete_one q l) -> In x l.
Proof.
  induction l as [|y l IH]; cbn; [tauto|].
  destruct (q y); cbn; [tauto|]. intros [-> | H]; [now left | right; auto].
Qed.

Lemma delete_one_length {A} (q : A -> bool) (l : list A) :
  length (delete_one q l) =
  length l - (match find_one q l with Some _ => 1 | None => 0 end).
Proof.
  unfold find_one. induction l as [|y l IH]; cbn; [reflexivity|].
  destruct (q y); cbn; [lia|]. rewrite IH.
  destruct (find q l) eqn:Hf; [|lia].
  destruct l; [discriminate Hf | cbn; lia].
Qed.

Lemma delete_one_owned_gone (oid : string) (u : User.t)
    (ps : list Product.t) :
  unique_ids ps ->
  find_one (owned_product oid u) (delete_one (owned_product oid u) ps) = None.
Proof.
  unfold unique_ids, find_one. induction ps as [|p ps IH]; cbn; [reflexivity|].
  intros Hnd. inversion Hnd as [|? ? Hnotin Hnd']; subst.
  destruct (owned_product oid u p) eqn:Hq.
  - apply owned_product_spec in Hq as [Hid _].
    destruct (find (owned_product oid u) ps) as [y|] eqn:Hf; [|reflexivity].
    apply find_some in Hf as [Hin Hy].
    apply owned_product_spec in Hy as [Hy _].
    elim Hnotin. rewrite Hid, <- Hy. apply in_map. exact Hin.
  - cbn. rewrite Hq. apply IH. exact Hnd'.
Qed.

(** X17.  [update_product] refuses what is not the caller's: with an id the
    parser rejects it raises [InvalidId], and with the id of no product of the
    caller (none at all, or one of another user) it fails with
    404 "Product not found"; in both cases no collection changes. *)
Theorem update_product_refuses_foreign (pid : string) (body : ProductBody)
    (a : option string) (u : User.t) (s : Shop) (w1 : World) :
  get_user_from_token a (core s) = (inr u, w1) ->
  (ObjectId pid = None ->
   update_product pid body a s = (inl InvalidId, with_core w1 s)) /\
  (forall oid, ObjectId pid = Some oid ->
     (forall p, In p (product s) -> Product._id p = oid ->
                Product.user_id p <> User._id u) ->
     update_product pid body a s =
     (inl (HTTPException 404 "Product not found"), with_core w1 s)).
Proof.
  intros H. unfold update_product. rewrite (sprotected_run _ _ _ _ _ H).
  unfold update_product_handler. split.
  - intros ->. reflexivity.
  - intros oid -> Hforeign. srun.
    destruct (find_one (owned_product oid u) (product s)) as [p|] eqn:Hf;
      [|reflexivity].
    apply find_some in Hf as [Hin Hp].
    apply owned_product_spec in Hp as [Hid Hown].
    elim (Hforeign p Hin Hid Hown).
Qed.

(** X18.  With identifiers unique in the collection, a successful
    [update_product] rewrites the caller's product of that id and nothing
    else: the product keeps its id, owner and creation date, takes the
    fields of the body and, as [updated_at], the clock reading cut down to
    the millisecond the store keeps; every other product is untouched, so
    what another user lists does not change. *)
Theorem update_product_rewrites_own (pid oid : string) (body : ProductBody)
    (a : option string) (u : User.t) (p : Product.t) (s : Shop)
    (w1 : World) :
  get_user_from_token a (core s) = (inr u, w1) ->
  unique_ids (product s) ->
  ObjectId pid = Some oid ->
  find_one (owned_product oid u) (product s) = Some p ->
  exists s',
    update_product pid body a s = (inr true, s') /\
    product s' =
      map (fun x => if Product._id x =? oid
                    then set_fields body (bson_datetime (clock w1 (ticks w1))) x
                    else x)
        (product s) /\
    unique_ids (product s') /\
    socialaccount s' = socialaccount s /\ order s' = order s /\
    forall v, User._id v <> User._id u ->
      fst (list_products_handler v s') = fst (list_products_handler v s).
Proof.
  intros H Hnd Hoid Hfind. unfold update_product.
  rewrite (sprotected_run _ _ _ _ _ H). unfold update_product_handler.
  rewrite Hoid. srun. rewrite Hfind. unfold lift, utcnow. srun.
  eexists. split; [reflexivity|].
  cbn [product socialaccount order set_product with_core].
  rewrite (update_one_unique _ _ _ Hnd).
  split; [reflexivity|]. split; [|split; [reflexivity|split; [reflexivity|]]].
  - unfold unique_ids in *. rewrite map_map.
    erewrite map_ext; [exact Hnd|].
    intros x. cbn. destruct (Product._id x =? oid); reflexivity.
  - intros v Hv. f_equal.
    apply find_some in Hfind as [Hin Hp].
    apply owned_product_spec in Hp as [Hid Hown].
    induction (product s) as [|x ps IH]; [reflexivity|].
    cbn [map filter].
    assert (Hnd' : unique_ids ps).
    { unfold unique_ids in *. cbn in Hnd.
      apply NoDup_cons_iff in Hnd as [_ Hnd]. exact Hnd. }
    destruct (String.eqb_spec (Product._id x) oid) as [Hx | Hx].
    + assert (x = p) as ->.
      { apply (unique_ids_eq (x :: ps)); try assumption; [now left|].
        congruence. }
      cbn [set_fields Product.user_id]. rewrite Hown.
      destruct (String.eqb_spec (User._id u) (User._id v)) as [E|_];
        [elim Hv; congruence|].
      destruct Hin as [_ | Hin].
      * clear IH. f_equal.
        rewrite <- (map_id ps) at 2. f_equal. apply map_ext_in.
        intros y Hy.
        destruct (String.eqb_spec (Product._id y) oid) as [Hy'|];
          [|reflexivity].
        exfalso. unfold unique_ids in Hnd. cbn in Hnd.
        apply NoDup_cons_iff in Hnd as [Hnotin _].
        apply Hnotin. rewrite Hid, <- Hy'. apply in_map. exact Hy.
      * exfalso. unfold unique_ids in Hnd. cbn in Hnd.
        apply NoDup_cons_iff in Hnd as [Hnotin _].
        apply Hnotin. apply in_map. exact Hin.
    + destruct Hin as [-> | Hin]; [contradiction|].
      destruct (Product.user_id x =? User._id v); cbn [map];
        rewrite (IH Hnd' Hin); reflexivity.
Qed.

(** X19.  [delete_product] never reports a missing product: whenever the
    id parses it answers ok.  It removes at most one product, which is then
    the caller's product of that id; every product of another id or another
    owner stays, and where the caller has no such product nothing changes.
    With identifiers unique, no product of that id is left to the caller. *)
Theorem delete_product_removes_own (pid oid : string) (a : option string)
    (u : User.t) (s : Shop) (w1 : World) :
  get_user_from_token a (core s) = (inr u, w1) ->
  ObjectId pid = Some oid ->
  exists s',
    delete_product pid a s = (inr true, s') /\
    socialaccount s' = socialaccount s /\ order s' = order s /\
    (forall x, In x (product s') -> In x (product s)) /\
    (forall x, In x (product s) -> owned_product oid u x = false ->
               In x (product s')) /\
    length (product s') =
      length (product s)
      - (match find_one (owned_product oid u) (product s) with
         | Some _ => 1 | None => 0 end) /\
    (find_one (owned_product oid u) (product s) = None ->
     product s' = product s) /\
    (unique_ids (product s) ->
     find_one (owned_product oid u) (product s') = None).
Proof.
  intros H Hoid. unfold delete_product.
  rewrite (sprotected_run _ _ _ _ _ H). unfold delete_product_handler.
  rewrite Hoid. srun. eexists. split; [reflexivity|].
  cbn [product socialaccount order set_product with_core].
  split; [reflexivity|]. split; [reflexivity|].
  split; [intros x; apply delete_one_incl|].
  split; [intros x; apply delete_one_keeps|].
  split; [apply delete_one_length|].
  split; [apply delete_one_none | apply delete_one_owned_gone].
Qed.

(** X20.  [create_order] sells only what the caller owns.  With an id the
    parser rejects it raises [InvalidId].  With an id that parses: for a
    product of the caller it appends one order, paid, in USD, for the buyer
    given, whose amount is the product's price (0 when the product has
    none), and changes no product; when the caller owns no product of that
    id it fails with 404 "Product not found".  A failure writes nothing. *)
Theorem create_order_charges_price (body : OrderBody) (a : option string)
    (u : User.t) (s : Shop) (w1 : World) :
  get_user_from_token a (core s) = (inr u, w1) ->
  match ObjectId (ob_product_id body) with
  | None => create_order body a s = (inl InvalidId, with_core w1 s)
  | Some oid =>
      match find_one (owned_product oid u) (product s) with
      | Some prod =>
          exists s',
            create_order body a s =
              (inr (mkOrderResponse (oids w1 (minted w1)) "paid"), s') /\
            order s' =
              (order s ++
               [Order.mk (oids w1 (minted w1)) (User._id u)
                  (ob_product_id body) (ob_buyer_email body) (get_price prod)
                  "USD" "paid" (clock w1 (ticks w1))])%list /\
            product s' = product s /\ socialaccount s' = socialaccount s
      | None =>
          create_order body a s =
          (inl (HTTPException 404 "Product not found"), with_core w1 s)
      end
  end.
Proof.
  intros H. unfold create_order.
  rewrite (sprotected_run _ _ _ _ _ H). unfold create_order_handler.
  destruct (ObjectId (ob_product_id body)) as [oid|]; [|reflexivity].
  srun.
  destruct (find_one (owned_product oid u) (product s)) as [prod|];
    [|reflexivity].
  rewrite create_document_in_run. cbv zeta.
  cbn [core with_core insert_order order product socialaccount].
  eexists. repeat split.
Qed.

Lemma find_one_owned_after_update (oid : string) (u : User.t)
    (f : Product.t -> Product.t) (ps : list Product.t) (p : Product.t) :
  (forall x, Product._id (f x) = Product._id x) ->
  (forall x, Product.user_id (f x) = Product.user_id x) ->
  find_one (owned_product oid u) ps = Some p ->
  find_one (owned_product oid u)
    (map (fun x => if Product._id x =? oid then f x else x) ps) = Some (f p).
Proof.
  intros Hid Hown. unfold find_one.
  induction ps as [|x ps IH]; cbn; [discriminate|].
  destruct (owned_product oid u x) eqn:Hq.
  - intros [= ->]. apply owned_product_spec in Hq as [Hq1 Hq2].
    rewrite Hq1, String.eqb_refl.
    assert (Hq' : owned_product oid u (f p) = true).
    { apply owned_product_spec. rewrite Hid, Hown. split; assumption. }
    rewrite Hq'. reflexivity.
  - intros Hf.
    assert (Hq' : owned_product oid u
                    (if Product._id x =? oid then f x else x) = false).
    { destruct (Product._id x =? oid); [|exact Hq].
      unfold owned_product in *. rewrite Hid, Hown. exact Hq. }
    rewrite Hq'. apply IH. exact Hf.
Qed.

(** X21.  An order placed after a product was updated charges the updated
    price: with identifiers unique, [update_product] followed by
    [create_order] for the same id, both by the owner, stores an order whose
    amount is the price of the update's body. *)
Theorem order_after_update_charges_new_price (pid oid : string)
    (pbody : ProductBody) (obody : OrderBody) (a : option string)
    (u : User.t) (p : Product.t) (s : Shop) (w1 : World) :
  get_user_from_token a (core s) = (inr u, w1) ->
  unique_ids (product s) ->
  ObjectId pid = Some oid ->
  ob_product_id obody = pid ->
  find_one (owned_product oid u) (product s) = Some p ->
  exists s1,
    update_product pid pbody a s = (inr true, s1) /\
    forall w2, get_user_from_token a (core s1) = (inr u, w2) ->
      exists r s2 o,
        create_order obody a s1 = (inr r, s2) /\
        order s2 = (order s ++ [o])%list /\
        Order.amount o = pb_price pbody /\
        Order._id o = or_id r /\ Order.user_id o = User._id u.
Proof.
  intros H Hnd Hoid Hpid Hfind. unfold update_product.
  rewrite (sprotected_run _ _ _ _ _ H). unfold update_product_handler.
  rewrite Hoid. srun. rewrite Hfind. unfold lift, utcnow. srun.
  eexists. split; [reflexivity|]. intros w2 H2.
  unfold create_order. rewrite (sprotected_run _ _ _ _ _ H2).
  unfold create_order_handler. rewrite Hpid, Hoid. srun.
  cbn [product set_product with_core].
  rewrite (update_one_unique _ _ _ Hnd).
  rewrite (find_one_owned_after_update oid u _ _ p); try reflexivity;
    [|exact Hfind].
  rewrite create_document_in_run. cbv zeta.
  cbn [core with_core insert_order order product socialaccount set_product].
  do 3 eexists. split; [reflexivity|]. split; [reflexivity|].
  repeat split.
Qed.

(** X22.  A request whose authentication fails gets that failure from every
    protected endpoint, and no handler runs: the store and the three shop
    collections are as before. *)
Theorem unauthenticated_requests_do_nothing (a : option string) (e : Exn)
    (s : Shop) (w1 : World) :
  get_user_from_token a (core s) = (inl e, w1) ->
  db w1 = db (core s) /\
  me a (core s) = (inl e, w1) /\
  uploads_stats a (core s) = (inl e, w1) /\
  (forall body, upload body a (core s) = (inl e, w1)) /\
  (forall body, ai_edit body a (core s) = (inl e, w1)) /\
  list_accounts a s = (inl e, with_core w1 s) /\
  (forall body, link_account body a s = (inl e, with_core w1 s)) /\
  list_products a s = (inl e, with_core w1 s) /\
  (forall body, create_product body a s = (inl e, with_core w1 s)) /\
  (forall pid body, update_product pid body a s = (inl e, with_core w1 s)) /\
  (forall pid, delete_product pid a s = (inl e, with_core w1 s)) /\
  (forall body, create_order body a s = (inl e, with_core w1 s)).
Proof.
  intros H.
  assert (Hp : forall A (h : User.t -> M A),
            protected h a (core s) = (inl e, w1)).
  { intros A h. unfold protected, bind. rewrite H. reflexivity. }
  assert (Hs : forall A (h : User.t -> SM A),
            sprotected h a s = (inl e, with_core w1 s)).
  { intros A h. unfold sprotected, sbind, lift. rewrite H. reflexivity. }
  split.
  { rewrite <- (get_user_from_token_db a (core s)), H. reflexivity. }
  repeat split; intros; first [apply Hp | apply Hs].
Qed.

(** ** Statistics, repeated signups and what a success rests on *)

(** X23.  What [uploads_stats] reports is what [upload] enforces: for an
    upload that follows the statistics on the same UTC day with the same
    credential, the request is refused with 429, carrying the reported
    used and limit, when the reported used plus the platforms requested
    exceeds the reported limit, and queued when it does not or when no limit
    was reported. *)
Theorem stats_predict_upload (body : UploadBody) (a : option string)
    (r : StatsResponse) (u : User.t) (w w1 w2 : World) :
  uploads_stats a w = (inr r, w1) ->
  get_user_from_token a w1 = (inr u, w2) ->
  same_day w (ticks w) (S (ticks w2)) ->
  let requested := length (up_platforms body) in
  (forall limit, st_limit r = Some limit -> limit < st_used r + requested ->
     fst (upload body a w1) =
     inl (HTTPException 429 (quota_detail (st_used r) limit))) /\
  (st_limit r = None \/
   (exists limit, st_limit r = Some limit /\ st_used r + requested <= limit) ->
   fst (upload body a w1) =
   inr (mkUploadResponse "queued" (oids w2 (minted w2)))).
Proof.
  intros Hstats Hauth Hday requested.
  apply uploads_stats_inv in Hstats
    as (u0 & wa & Ha & -> & Hdb & Hc & Ht & Hr).
  assert (u = u0) as -> by
    exact (get_user_from_token_agree _ _ _ _ _ _ _ Hdb Ha Hauth).
  destruct (auth_ok _ _ _ _ Hauth) as (Hdb2 & Hc2 & Ht2).
  rewrite (upload_run _ _ _ _ _ Hauth). cbv zeta.
  cbn [st_limit st_used]. rewrite Hdb2, Hc2, Hdb, Hc.
  rewrite (daily_count_same_day _ (clock w (ticks w2)) (clock w (ticks wa)))
    by (rewrite (Hday (ticks w2)), (Hday (ticks wa)) by lia; reflexivity).
  fold requested. split.
  - intros limit -> Hover. apply Nat.ltb_lt in Hover. rewrite Hover.
    reflexivity.
  - intros [-> | (limit & -> & Hfit)]; [reflexivity|].
    apply Nat.ltb_ge in Hfit. rewrite Hfit. reflexivity.
Qed.

(** X24.  After a successful [signup] the email is taken: while users are
    only added, every further [signup] with that email, whatever the name and
    password, fails with 400 "Email already registered" and writes nothing. *)
Theorem signup_twice_conflicts (body : SignupBody) (w : World) :
  find_one (fun u => User.email u =? su_email body) (user (db w)) = None ->
  exists resp w1,
    signup body w = (inr resp, w1) /\
    forall w2 again,
      (exists us, user (db w2) = (user (db w1) ++ us)%list) ->
      su_email again = su_email body ->
      signup again w2 =
      (inl (HTTPException 400 "Email already registered"), w2).
Proof.
  intros Hfresh. unfold signup at 1, bind at 1, get_db at 1. rewrite Hfresh.
  run. do 2 eexists. split; [reflexivity|].
  intros w2 again [us Hus] Hsame.
  cbn [db user insert_session insert_user] in Hus.
  rewrite Hus, Hsame, !find_one_app, Hfresh. cbn.
  rewrite String.eqb_refl. reflexivity.
Qed.

(** X25.  A successful authentication always rests on the store: the header
    splits into a scheme that is "bearer" up to case and a token; a stored
    session carries exactly that token and has not expired at the clock
    reading; and the user returned is a stored user whose id is the one the
    session's user id denotes. *)
Theorem authentication_is_sound (a : option string) (u : User.t)
    (w w1 : World) :
  get_user_from_token a w = (inr u, w1) ->
  exists h scheme tok sess,
    a = Some h /\ split h = [scheme; tok] /\ lower scheme = "bearer" /\
    In sess (session (db w)) /\ Session.token sess = tok /\
    match Session.expires_at sess with
    | Some e => (clock w (ticks w) <= e)%Z
    | None => True
    end /\
    ObjectId (Session.user_id sess) = Some (User._id u) /\
    In u (user (db w)).
Proof.
  unfold get_user_from_token.
  destruct a as [[|c h]|]; try discriminate.
  destruct (split (String c h)) as [|s [|t [|x r]]] eqn:Hsplit;
    try discriminate.
  destruct (String.eqb_spec (lower s) "bearer") as [Hlow|]; [|discriminate].
  cbn [negb]. intros H.
  assert (Hexp : forall sess,
            find_one (fun x => Session.token x =? t) (session (db w))
              = Some sess ->
            match Session.expires_at sess with
            | Some e => (clock w (ticks w) <= e)%Z
            | None => True
            end).
  { intros sess Hs. revert H. unfold user_of_token, bind, get_db.
    rewrite Hs. destruct (Session.expires_at sess) as [e|]; [|trivial].
    cbn. destruct (Z.ltb_spec e (clock w (ticks w))); [discriminate|].
    intros _. assumption. }
  apply user_of_token_inv in H as (sess & oid & Hs & Ho & Hu).
  specialize (Hexp _ Hs).
  apply find_some in Hs as [Hs1 Hs2]. apply String.eqb_eq in Hs2.
  apply find_some in Hu as [Hu1 Hu2]. apply String.eqb_eq in Hu2.
  exists (String c h), s, t, sess. subst oid. repeat split; assumption.
Qed.

End Main.

(** ** The daily count against the specification's usage *)

(** C1.  With one log of the day that targets three platforms,
    [get_daily_count] returns 1 where the specification's usage is 3; and in
    the specification's end-to-end scenario the statistics report used 1 and
    then 2 (not 3 and 4), and the third upload is queued (not rejected). *)
Theorem daily_count_counts_logs :
  let log :=
    UploadLog.mk "oid1" "oid0" "video" None ["ig"; "fb"; "tiktok"] "queued"
      None (toy_clock 0) in
  let w := with_db (insert_uploadlog log (db w_alice)) w_alice in
  fst (get_daily_count "oid0" w) = inr 1 /\
  spec_used "oid0" (clock w (ticks w)) (uploadlog (db w)) = 3 /\
  fst (scenario toy_digest toy_ObjectId w_empty) =
    inr (mkStatsResponse "free" (Some 4) 1,
         mkStatsResponse "free" (Some 4) 2,
         mkUploadResponse "queued" "oid3").
Proof. vm_compute. repeat split. Qed.

(** C6, as first stated, fails on an empty header: the header is present and
    does not split into two tokens, yet the failure raised is the one for a
    missing header. *)
Lemma empty_header_reported_missing :
  length (split "") <> 2 /\
  get_user_from_token toy_ObjectId (Some "") w_empty =
    (inl (HTTPException 401 "Missing Authorization header"), w_empty) /\
  HTTPException 401 "Missing Authorization header" <>
  HTTPException 401 "Invalid Authorization header".
Proof. repeat split; discriminate. Qed.

(** C3, as first stated, fails on a clock that reads half a millisecond
    past [t0] when the session is created: the store keeps [created_at] as
    [t0] and [expires_at] as [t0] plus seven days, neither of them the
    reading, and at 300 microseconds past [t0] plus seven days, which is
    not after the reading plus seven days, the token is refused as
    expired. *)
Lemma session_expiry_cut_to_milliseconds :
  let now := submilli_clock 0 in
  let w1 := snd (create_session "oid0" w_submilli) in
  fst (create_session "oid0" w_submilli) = inr "T0" /\
  submilli_clock 1 = now /\
  session (db w1) = [Session.mk "T0" "oid0" t0 (Some (t0 + timedelta 7)%Z)] /\
  t0 <> now /\ (t0 + timedelta 7)%Z <> (now + timedelta 7)%Z /\
  (clock w1 (ticks w1) <= now + timedelta 7)%Z /\
  fst (get_user_from_token toy_ObjectId (Some "Bearer T0") w1) =
    inl (HTTPException 401 "Session expired").
Proof. vm_compute. repeat split; discriminate. Qed.

(** C2.  With one log of the day that targets three platforms the
    specification's usage is 3, so on plan "free" (limit 4) a request for two
    more platforms exceeds the limit; [upload] checks the number of logs, 1,
    and queues the request, and the next one too (the specification's usage
    then being 5).  Only the third request of that size is refused, and its
    detail carries used 3. *)
Theorem upload_checks_log_count :
  let request := mkUploadBody "image" None ["x"; "yt"] in
  let w1 := snd (upload toy_ObjectId request alice_bearer w_three) in
  let w2 := snd (upload toy_ObjectId request alice_bearer w1) in
  get_plan alice_user = "free" /\
  dict_get PLATFORM_LIMITS "free" = Some 4 /\
  spec_used "oid0" (clock w_three (ticks w_three)) (uploadlog (db w_three)) = 3
  /\
  4 < 3 + length (up_platforms request) /\
  fst (upload toy_ObjectId request alice_bearer w_three) =
    inr (mkUploadResponse "queued" "oid1") /\
  spec_used "oid0" (clock w1 (ticks w1)) (uploadlog (db w1)) = 5 /\
  fst (upload toy_ObjectId request alice_bearer w1) =
    inr (mkUploadResponse "queued" "oid2") /\
  fst (upload toy_ObjectId request alice_bearer w2) =
    inl (HTTPException 429 "Daily limit exceeded. 3/4 used.").
Proof. vm_compute. repeat split; repeat constructor. Qed.

(** ** The theorems at work on the concrete world *)

Lemma w_alice_after_signup : snd (signup toy_digest alice w_empty) = w_alice.
Proof. reflexivity. Qed.

Lemma bearer_header_parsing_witness :
  get_user_from_token toy_ObjectId None w_empty =
    (inl (HTTPException 401 "Missing Authorization header"), w_empty) /\
  get_user_from_token toy_ObjectId (Some "Basic T0") w_alice =
    (inl (HTTPException 401 "Invalid Authorization header"), w_alice) /\
  get_user_from_token toy_ObjectId (Some "Bearer") w_alice =
    (inl (HTTPException 401 "Invalid Authorization header"), w_alice).
Proof.
  split; [|split].
  - apply (proj1 (bearer_header_parsing toy_ObjectId None w_empty)).
    left. reflexivity.
  - apply (proj1 (proj2 (bearer_header_parsing toy_ObjectId
                            (Some "Basic T0") w_alice)) "Basic T0").
    + reflexivity.
    + discriminate.
    + right. vm_compute. discriminate.
  - apply (proj1 (proj2 (bearer_header_parsing toy_ObjectId
                            (Some "Bearer") w_alice)) "Bearer").
    + reflexivity.
    + discriminate.
    + left. vm_compute. discriminate.
Defined.

Lemma dangling_session_unauthenticated_witness :
  fst (get_user_from_token toy_ObjectId (Some "Bearer T9") w_dangling) =
    inl (HTTPException 401 "User not found") /\
  db (snd (get_user_from_token toy_ObjectId (Some "Bearer T9") w_dangling)) =
    db w_dangling.
Proof.
  apply (dangling_session_unauthenticated toy_ObjectId "Bearer T9" "Bearer"
           "T9" w_dangling
           (Session.mk "T9" "oid9" t0 (Some (t0 + timedelta 7)%Z)) "oid9");
    try reflexivity.
  vm_compute. discriminate.
Defined.


Lemma ai_edit_plan_gate_witness :
  fst (ai_edit toy_ObjectId (mkAiEditBody None ["trim"]) alice_bearer w_alice) =
    inl (HTTPException 403 "AI video editing is available for Ultra Pro only")
  /\
  fst (ai_edit toy_ObjectId (mkAiEditBody None ["trim"]) (Some "Bearer T7")
         w_ultra) =
    inr (mkAiEditResponse "job0" "processing").
Proof.
  split.
  - destruct (ai_edit_plan_gate toy_ObjectId (mkAiEditBody None ["trim"])
                alice_bearer alice_user w_alice
                (snd (get_user_from_token toy_ObjectId alice_bearer w_alice))
                eq_refl) as [Hfree _].
    destruct Hfree as [Hrun _]; [vm_compute; discriminate|].
    rewrite Hrun. reflexivity.
  - destruct (ai_edit_plan_gate toy_ObjectId (mkAiEditBody None ["trim"])
                (Some "Bearer T7")
                (User.mk "oid7" "Una" "u@x.com" (Some (toy_digest "pw"))
                   (Some "ultra_pro") None)
                w_ultra
                (snd (get_user_from_token toy_ObjectId (Some "Bearer T7")
                        w_ultra))
                eq_refl) as [_ Hultra].
    destruct Hultra as (w2 & Hrun & _); [reflexivity|].
    rewrite Hrun. reflexivity.
Defined.

Lemma create_session_resolves_witness :
  exists w1,
    create_session "oid0" w_submilli = (inr "T0", w1) /\
    session (db w1) =
      [Session.mk "T0" "oid0" t0 (Some (t0 + timedelta 7)%Z)] /\
    fst (get_user_from_token toy_ObjectId (Some "Bearer T0")
           (mkWorld (db w1) (clock w1) 0 (entropy w1) (draws w1) (oids w1)
                    (minted w1))) = inr alice_user /\
    fst (get_user_from_token toy_ObjectId (Some "Bearer T0") w1) =
      inl (HTTPException 401 "Session expired").
Proof.
  destruct (create_session_resolves toy_ObjectId "oid0" "oid0" alice_user
              w_submilli eq_refl eq_refl eq_refl eq_refl)
    as (w1 & Hcreate & Hdb & _ & _ & Hresolve).
  exists w1. split; [exact Hcreate|].
  split; [rewrite Hdb; reflexivity|].
  assert (Hw1 : w1 = snd (create_session "oid0" w_submilli)).
  { apply (f_equal snd) in Hcreate. symmetry. exact Hcreate. }
  split.
  - destruct (Hresolve
                (mkWorld (db w1) (clock w1) 0 (entropy w1) (draws w1)
                   (oids w1) (minted w1)) (grows_refl _)) as (Hok & _ & _).
    apply Hok. subst w1. vm_compute. discriminate.
  - destruct (Hresolve w1 (grows_refl _)) as (_ & Hexpired & _).
    apply Hexpired. subst w1. reflexivity.
Defined.


Lemma upload_quota_decision_witness :
  fst (upload toy_ObjectId
         (mkUploadBody "image" None ["ig"; "fb"; "x"; "yt"; "tiktok"])
         alice_bearer w_alice) =
    inl (HTTPException 429 "Daily limit exceeded. 0/4 used.") /\
  fst (upload toy_ObjectId (mkUploadBody "image" None ["ig"; "fb"; "x"; "yt"])
         alice_bearer w_alice) =
    inr (mkUploadResponse "queued" "oid1").
Proof.
  set (wa := snd (get_user_from_token toy_ObjectId alice_bearer w_alice)).
  set (wc := snd (get_daily_count "oid0" wa)).
  assert (Hauth : get_user_from_token toy_ObjectId alice_bearer w_alice =
                  (inr alice_user, wa)) by reflexivity.
  assert (Hcount : get_daily_count (User._id alice_user) wa = (inr 0, wc))
    by reflexivity.
  split.
  - destruct (upload_quota_decision toy_ObjectId
                (mkUploadBody "image" None ["ig"; "fb"; "x"; "yt"; "tiktok"])
                _ _ _ _ _ _ Hauth Hcount) as (_ & _ & _ & H).
    change (dict_get PLATFORM_LIMITS (get_plan alice_user)) with (Some 4) in H.
    destruct H as [Hreject _]. rewrite Hreject; [reflexivity | cbn; lia].
  - destruct (upload_quota_decision toy_ObjectId
                (mkUploadBody "image" None ["ig"; "fb"; "x"; "yt"])
                _ _ _ _ _ _ Hauth Hcount) as (_ & _ & _ & H).
    change (dict_get PLATFORM_LIMITS (get_plan alice_user)) with (Some 4) in H.
    destruct H as [_ Haccept].
    destruct Haccept as (w3 & Hrun & _); [cbn; lia|].
    rewrite Hrun. reflexivity.
Defined.

Lemma uploads_stats_repeatable_witness :
  exists r w1 w2,
    uploads_stats toy_ObjectId alice_bearer w_alice = (inr r, w1) /\
    uploads_stats toy_ObjectId alice_bearer w1 = (inr r, w2) /\
    r = mkStatsResponse "free" (Some 4) 0 /\ db w2 = db w_alice.
Proof.
  set (w1 := snd (uploads_stats toy_ObjectId alice_bearer w_alice)).
  set (w2 := snd (uploads_stats toy_ObjectId alice_bearer w1)).
  set (r := mkStatsResponse "free" (Some 4) 0).
  assert (H1 : uploads_stats toy_ObjectId alice_bearer w_alice = (inr r, w1))
    by reflexivity.
  assert (H2 : uploads_stats toy_ObjectId alice_bearer w1 = (inr r, w2))
    by reflexivity.
  exists r, w1, w2. split; [exact H1|]. split; [exact H2|].
  split; [reflexivity|].
  apply (uploads_stats_repeatable toy_ObjectId alice_bearer r r w_alice w1 w2
           H1 H2).
  intros n Hn. change (ticks w_alice) with 3 in *. change (ticks w2) with 7 in Hn.
  assert (Hcases : n = 3 \/ n = 4 \/ n = 5 \/ n = 6) by lia.
  destruct Hcases as [-> | [-> | [-> | ->]]]; reflexivity.
Defined.

Lemma rejected_upload_writes_nothing_witness :
  exists w w1 w2 r0 r,
    uploads_stats toy_ObjectId alice_bearer w_alice = (inr r0, w) /\
    upload toy_ObjectId
      (mkUploadBody "image" None ["ig"; "fb"; "x"; "yt"; "tiktok"])
      alice_bearer w =
      (inl (HTTPException 429 "Daily limit exceeded. 0/4 used."), w1) /\
    uploads_stats toy_ObjectId alice_bearer w1 = (inr r, w2) /\
    db w1 = db w /\ st_used r = st_used r0.
Proof.
  set (body := mkUploadBody "image" None ["ig"; "fb"; "x"; "yt"; "tiktok"]).
  set (w := snd (uploads_stats toy_ObjectId alice_bearer w_alice)).
  set (w1 := snd (upload toy_ObjectId body alice_bearer w)).
  set (w2 := snd (uploads_stats toy_ObjectId alice_bearer w1)).
  set (r := mkStatsResponse "free" (Some 4) 0).
  assert (Hbefore : uploads_stats toy_ObjectId alice_bearer w_alice =
                    (inr r, w)) by reflexivity.
  assert (Hreject : upload toy_ObjectId body alice_bearer w =
            (inl (HTTPException 429 "Daily limit exceeded. 0/4 used."), w1))
    by reflexivity.
  assert (Hafter : uploads_stats toy_ObjectId alice_bearer w1 = (inr r, w2))
    by reflexivity.
  assert (Hday : same_day w_alice (ticks w_alice) (ticks w2)).
  { intros n Hn. change (ticks w_alice) with 3 in *.
    change (ticks w2) with 9 in Hn.
    assert (Hcases : n = 3 \/ n = 4 \/ n = 5 \/ n = 6 \/ n = 7 \/ n = 8)
      by lia.
    destruct Hcases as [-> | [-> | [-> | [-> | [-> | ->]]]]]; reflexivity. }
  destruct (rejected_upload_writes_nothing toy_ObjectId body alice_bearer _
              w w1 Hreject) as [Hdb Hstats].
  destruct (Hstats w_alice w2 r r Hbefore Hafter Hday) as [Hused _].
  exists w, w1, w2, r, r. repeat split; assumption.
Defined.

(** ** The further properties at work on the concrete world *)

Lemma alice_authenticates :
  get_user_from_token toy_ObjectId alice_bearer w_alice =
  (inr alice_user,
   snd (get_user_from_token toy_ObjectId alice_bearer w_alice)).
Proof. reflexivity. Defined.


Lemma signup_keeps_emails_unique_witness :
  NoDup
    (map User.email
       (user (db (snd (signup toy_digest (mkSignupBody "Bob" "b@x.com" "pw")
                         w_alice))))).
Proof.
  apply (signup_keeps_emails_unique toy_digest).
  constructor; [intros [] | constructor].
Defined.

Lemma authentication_failures_witness :
  HTTPException 401 "Invalid token" = InvalidId \/
  In (HTTPException 401 "Invalid token")
    (map (HTTPException 401)
       [ "Missing Authorization header"; "Invalid Authorization header";
         "Invalid token"; "Session expired"; "User not found" ]).
Proof.
  apply (proj2 (authentication_failures toy_ObjectId (Some "Bearer nope")
                  w_alice)).
  reflexivity.
Defined.

Lemma bearer_header_tolerant_witness :
  get_user_from_token toy_ObjectId
    (Some ("  " ++ "bEaReR" ++ String "009" " " ++ "T0" ++ " ")) w_alice =
  get_user_from_token toy_ObjectId (Some ("Bearer " ++ "T0")) w_alice.
Proof.
  apply (bearer_header_tolerant toy_ObjectId); try reflexivity.
  discriminate.
Defined.

Lemma accepted_upload_counts_once_witness :
  daily_count "oid0" (toy_clock 10)
    (uploadlog
       (db (snd (upload toy_ObjectId
                   (mkUploadBody "video" None ["ig"; "fb"; "tiktok"])
                   alice_bearer w_alice)))) = 1.
Proof.
  exact (accepted_upload_counts_once toy_ObjectId
           (mkUploadBody "video" None ["ig"; "fb"; "tiktok"]) alice_bearer
           alice_user (mkUploadResponse "queued" "oid1") w_alice
           (snd (get_user_from_token toy_ObjectId alice_bearer w_alice))
           (snd (upload toy_ObjectId
                   (mkUploadBody "video" None ["ig"; "fb"; "tiktok"])
                   alice_bearer w_alice))
           alice_authenticates eq_refl "oid0" (toy_clock 10)).
Defined.

Lemma unlisted_plan_is_unlimited_witness :
  exists w3,
    upload toy_ObjectId (mkUploadBody "video" None ["ig"; "fb"])
      (Some "Bearer T7") w_ultra =
    (inr (mkUploadResponse "queued" "job0"), w3).
Proof.
  apply (unlisted_plan_is_unlimited toy_ObjectId
           (mkUploadBody "video" None ["ig"; "fb"]) (Some "Bearer T7")
           (User.mk "oid7" "Una" "u@x.com" (Some (toy_digest "pw"))
              (Some "ultra_pro") None)
           w_ultra
           (snd (get_user_from_token toy_ObjectId (Some "Bearer T7") w_ultra))
           eq_refl).
  intros [H | [H | [H | []]]]; discriminate H.
Defined.

Lemma accepted_upload_within_limit_witness :
  daily_count "oid0" (toy_clock 4)
    (uploadlog
       (db (snd (upload toy_ObjectId
                   (mkUploadBody "video" None ["ig"; "fb"; "x"; "yt"])
                   alice_bearer w_alice)))) <= 4.
Proof.
  apply (accepted_upload_within_limit toy_ObjectId
           (mkUploadBody "video" None ["ig"; "fb"; "x"; "yt"]) alice_bearer
           alice_user (mkUploadResponse "queued" "oid1") 4 w_alice
           (snd (get_user_from_token toy_ObjectId alice_bearer w_alice))
           (snd (upload toy_ObjectId
                   (mkUploadBody "video" None ["ig"; "fb"; "x"; "yt"])
                   alice_bearer w_alice))
           alice_authenticates eq_refl eq_refl eq_refl).
  discriminate.
Defined.

Lemma empty_upload_accepted_at_limit_witness :
  exists w3,
    upload toy_ObjectId (mkUploadBody "text" None []) alice_bearer w_full =
      (inr (mkUploadResponse "queued" "oid1"), w3) /\
    daily_count "oid0" (toy_clock 4) (uploadlog (db w3)) = 4 + 1.
Proof.
  destruct (empty_upload_accepted_at_limit toy_ObjectId
              (mkUploadBody "text" None []) alice_bearer alice_user 4 w_full
              (snd (get_user_from_token toy_ObjectId alice_bearer w_full))
              eq_refl eq_refl eq_refl)
    as (w3 & Hrun & Hcount).
  - vm_compute. apply le_n.
  - exists w3. split; [exact Hrun|]. apply Hcount. reflexivity.
Defined.

Lemma signup_token_authenticates_witness :
  exists resp w1,
    signup toy_digest alice w_empty = (inr resp, w1) /\
    fst (me toy_ObjectId (Some ("Bearer " ++ r_token resp)) w1) =
      inr (r_user resp).
Proof.
  destruct (signup_token_authenticates toy_digest toy_ObjectId alice w_empty
              eq_refl eq_refl eq_refl eq_refl eq_refl)
    as (resp & w1 & Hsignup & Htok & Hme).
  exists resp, w1. split; [exact Hsignup|].
  rewrite Htok. apply Hme; [apply grows_refl|].
  apply (f_equal snd) in Hsignup. cbn [snd] in Hsignup. subst w1.
  vm_compute. discriminate.
Defined.

Lemma login_token_authenticates_witness :
  exists resp w1,
    login toy_digest (mkLoginBody "a@x.com" "s3cret") w_alice =
      (inr resp, w1) /\
    fst (me toy_ObjectId (Some ("Bearer " ++ r_token resp)) w1) =
      inr (r_user resp).
Proof.
  destruct (login_token_authenticates toy_digest toy_ObjectId
              (mkLoginBody "a@x.com" "s3cret") alice_user "oid0" w_alice
              eq_refl eq_refl eq_refl eq_refl eq_refl eq_refl)
    as (resp & w1 & Hlogin & Htok & Hme).
  exists resp, w1. split; [exact Hlogin|].
  rewrite Htok. apply Hme; [apply grows_refl|].
  apply (f_equal snd) in Hlogin. cbn [snd] in Hlogin. subst w1.
  vm_compute. discriminate.
Defined.

Lemma resolution_survives_growth_witness :
  let later :=
    snd (signup toy_digest (mkSignupBody "Bob" "b@x.com" "pw") w_alice) in
  fst (get_user_from_token toy_ObjectId alice_bearer later) = inr alice_user \/
  fst (get_user_from_token toy_ObjectId alice_bearer later) =
    inl (HTTPException 401 "Session expired").
Proof.
  apply (resolution_survives_growth toy_ObjectId alice_bearer alice_user
           w_alice _ _ alice_authenticates).
  split; eexists; reflexivity.
Defined.

Lemma alice_shops :
  get_user_from_token toy_ObjectId alice_bearer (core s_alice) =
  (inr alice_user,
   snd (get_user_from_token toy_ObjectId alice_bearer w_alice)).
Proof. reflexivity. Defined.

Lemma unique_ids_s_alice : unique_ids (product s_alice).
Proof.
  unfold unique_ids. cbn. constructor.
  - intros [H | []]. discriminate H.
  - constructor; [intros [] | constructor].
Defined.

Lemma link_account_then_list_witness :
  exists s',
    link_account toy_ObjectId (mkLinkAccountBody "instagram" "@alice")
      alice_bearer s_alice = (inr "oid1", s') /\
    fst (list_accounts_handler alice_user s') =
      inr [mkAccountView "oid1" "oid0" "instagram" "@alice" 0 None None
             "connected" (toy_clock 4)].
Proof.
  destruct (link_account_then_list toy_ObjectId
              (mkLinkAccountBody "instagram" "@alice") alice_bearer
              alice_user s_alice _ alice_shops) as (s' & Hlink & Hlist).
  exists s'. split; [exact Hlink|].
  apply (Hlist alice_user []). reflexivity.
Defined.

Lemma listings_are_isolated_witness :
  exists products s',
    list_products toy_ObjectId alice_bearer s_alice = (inr products, s') /\
    map pv_id products = ["p1"].
Proof.
  destruct (listings_are_isolated toy_ObjectId alice_bearer alice_user
              s_alice _ alice_shops)
    as (accounts & products & _ & Hlist & _ & _ & Hids & _).
  exists products. eexists. split; [exact Hlist | exact Hids].
Defined.

Lemma create_product_then_list_witness :
  exists s',
    create_product toy_ObjectId new_price alice_bearer s_alice =
      (inr "oid1", s') /\
    fst (list_products_handler alice_user s') =
      inr [product_view widget;
           mkProductView "oid1" (Some "Widget") (Some "now dearer")
             12.25%float (Some "digital") "active"].
Proof.
  destruct (create_product_then_list toy_ObjectId new_price alice_bearer
              alice_user s_alice _ alice_shops) as (s' & Hnew & Hlist).
  exists s'. split; [exact Hnew|].
  apply (Hlist alice_user [product_view widget]). reflexivity.
Defined.

Lemma update_product_refuses_foreign_witness :
  fst (update_product toy_ObjectId "" new_price alice_bearer s_alice) =
    inl InvalidId /\
  fst (update_product toy_ObjectId "p2" new_price alice_bearer s_alice) =
    inl (HTTPException 404 "Product not found").
Proof.
  destruct (update_product_refuses_foreign toy_ObjectId "" new_price
              alice_bearer alice_user s_alice _ alice_shops) as [Hbad _].
  destruct (update_product_refuses_foreign toy_ObjectId "p2" new_price
              alice_bearer alice_user s_alice _ alice_shops) as [_ Hforeign].
  split.
  - rewrite (Hbad eq_refl). reflexivity.
  - rewrite (Hforeign "p2" eq_refl); [reflexivity|].
    intros p [<- | [<- | []]] Hid; [discriminate Hid | discriminate].
Defined.

Lemma update_product_rewrites_own_witness :
  exists s',
    update_product toy_ObjectId "p1" new_price alice_bearer s_alice =
      (inr true, s') /\
    product s' = [set_fields new_price (toy_clock 4) widget; gadget].
Proof.
  destruct (update_product_rewrites_own toy_ObjectId "p1" "p1" new_price
              alice_bearer alice_user widget s_alice _ alice_shops
              unique_ids_s_alice eq_refl eq_refl)
    as (s' & Hrun & Hproducts & _).
  exists s'. split; [exact Hrun|]. rewrite Hproducts. reflexivity.
Defined.

Lemma delete_product_removes_own_witness :
  exists s1 s2,
    delete_product toy_ObjectId "p2" alice_bearer s_alice = (inr true, s1) /\
    product s1 = [widget; gadget] /\
    delete_product toy_ObjectId "p1" alice_bearer s_alice = (inr true, s2) /\
    find_one (owned_product "p1" alice_user) (product s2) = None.
Proof.
  destruct (delete_product_removes_own toy_ObjectId "p2" "p2" alice_bearer
              alice_user s_alice _ alice_shops eq_refl)
    as (s1 & Hrun1 & _ & _ & _ & _ & _ & Hsame & _).
  destruct (delete_product_removes_own toy_ObjectId "p1" "p1" alice_bearer
              alice_user s_alice _ alice_shops eq_refl)
    as (s2 & Hrun2 & _ & _ & _ & _ & _ & _ & Hgone).
  exists s1, s2. split; [exact Hrun1|]. split; [exact (Hsame eq_refl)|].
  split; [exact Hrun2 | exact (Hgone unique_ids_s_alice)].
Defined.

Lemma create_order_charges_price_witness :
  (exists s',
     create_order toy_ObjectId (mkOrderBody "p1" "buyer@x.com") alice_bearer
       s_alice = (inr (mkOrderResponse "oid1" "paid"), s') /\
     order s' =
       [Order.mk "oid1" "oid0" "p1" "buyer@x.com" 9.5%float "USD" "paid"
          (toy_clock 4)]) /\
  fst (create_order toy_ObjectId (mkOrderBody "p2" "buyer@x.com") alice_bearer
         s_alice) = inl (HTTPException 404 "Product not found") /\
  fst (create_order toy_ObjectId (mkOrderBody "" "buyer@x.com") alice_bearer
         s_alice) = inl InvalidId.
Proof.
  split; [|split].
  - destruct (create_order_charges_price toy_ObjectId
                (mkOrderBody "p1" "buyer@x.com") alice_bearer alice_user
                s_alice _ alice_shops) as (s' & Hrun & Horder & _).
    exists s'. split; [exact Hrun | exact Horder].
  - rewrite (create_order_charges_price toy_ObjectId
               (mkOrderBody "p2" "buyer@x.com") alice_bearer alice_user
               s_alice _ alice_shops).
    reflexivity.
  - rewrite (create_order_charges_price toy_ObjectId
               (mkOrderBody "" "buyer@x.com") alice_bearer alice_user
               s_alice _ alice_shops).
    reflexivity.
Defined.

Lemma order_after_update_charges_new_price_witness :
  exists s1 r s2 o,
    update_product toy_ObjectId "p1" new_price alice_bearer s_alice =
      (inr true, s1) /\
    create_order toy_ObjectId (mkOrderBody "p1" "buyer@x.com") alice_bearer
      s1 = (inr r, s2) /\
    order s2 = [o] /\ Order.amount o = 12.25%float.
Proof.
  destruct (order_after_update_charges_new_price toy_ObjectId "p1" "p1"
              new_price (mkOrderBody "p1" "buyer@x.com") alice_bearer
              alice_user widget s_alice _ alice_shops unique_ids_s_alice
              eq_refl eq_refl eq_refl) as (s1 & Hupdate & Horder).
  assert (Hs1 : s1 = snd (update_product toy_ObjectId "p1" new_price
                            alice_bearer s_alice)).
  { apply (f_equal snd) in Hupdate. symmetry. exact Hupdate. }
  destruct (Horder (snd (get_user_from_token toy_ObjectId alice_bearer
                           (core s1))))
    as (r & s2 & o & Hrun & Hlist & Hamount & _).
  { subst s1. reflexivity. }
  exists s1, r, s2, o. repeat split; assumption.
Defined.

Lemma unauthenticated_requests_do_nothing_witness :
  create_order toy_ObjectId (mkOrderBody "p1" "buyer@x.com") None s_alice =
    (inl (HTTPException 401 "Missing Authorization header"), s_alice) /\
  delete_product toy_ObjectId "p1" None s_alice =
    (inl (HTTPException 401 "Missing Authorization header"), s_alice) /\
  upload toy_ObjectId (mkUploadBody "video" None ["ig"]) None w_alice =
    (inl (HTTPException 401 "Missing Authorization header"), w_alice).
Proof.
  destruct (unauthenticated_requests_do_nothing toy_ObjectId None
              (HTTPException 401 "Missing Authorization header") s_alice
              w_alice eq_refl)
    as (_ & _ & _ & Hupload & _ & _ & _ & _ & _ & _ & Hdelete & Horder).
  split; [apply Horder|]. split; [apply Hdelete | apply Hupload].
Defined.

Lemma stats_predict_upload_witness :
  fst (upload toy_ObjectId
         (mkUploadBody "image" None ["ig"; "fb"; "x"; "yt"; "tiktok"])
         alice_bearer
         (snd (uploads_stats toy_ObjectId alice_bearer w_alice))) =
  inl (HTTPException 429 "Daily limit exceeded. 0/4 used.").
Proof.
  set (w1 := snd (uploads_stats toy_ObjectId alice_bearer w_alice)).
  set (w2 := snd (get_user_from_token toy_ObjectId alice_bearer w1)).
  assert (Hstats : uploads_stats toy_ObjectId alice_bearer w_alice =
                   (inr (mkStatsResponse "free" (Some 4) 0), w1))
    by reflexivity.
  assert (Hauth : get_user_from_token toy_ObjectId alice_bearer w1 =
                  (inr alice_user, w2)) by reflexivity.
  assert (Hday : same_day w_alice (ticks w_alice) (S (ticks w2))).
  { intros n Hn. change (ticks w_alice) with 3 in *.
    change (ticks w2) with 6 in Hn.
    assert (Hcases : n = 3 \/ n = 4 \/ n = 5 \/ n = 6) by lia.
    destruct Hcases as [-> | [-> | [-> | ->]]]; reflexivity. }
  destruct (stats_predict_upload toy_ObjectId
              (mkUploadBody "image" None ["ig"; "fb"; "x"; "yt"; "tiktok"])
              alice_bearer _ alice_user w_alice w1 w2 Hstats Hauth Hday)
    as [Hreject _].
  rewrite (Hreject 4 eq_refl); [reflexivity | cbn; lia].
Defined.

Lemma signup_twice_conflicts_witness :
  signup toy_digest (mkSignupBody "Mallory" "a@x.com" "other") w_alice =
  (inl (HTTPException 400 "Email already registered"), w_alice).
Proof.
  destruct (signup_twice_conflicts toy_digest alice w_empty eq_refl)
    as (resp & w1 & Hsignup & Hagain).
  apply (f_equal snd) in Hsignup. cbn [snd] in Hsignup.
  change (snd (signup toy_digest alice w_empty)) with w_alice in Hsignup.
  subst w1. apply Hagain; [|reflexivity].
  exists []. symmetry. apply app_nil_r.
Defined.

Lemma authentication_is_sound_witness :
  exists h scheme tok sess,
    alice_bearer = Some h /\ split h = [scheme; tok] /\
    lower scheme = "bearer" /\
    In sess (session (db w_alice)) /\ Session.token sess = tok /\
    toy_ObjectId (Session.user_id sess) = Some "oid0" /\
    In alice_user (user (db w_alice)).
Proof.
  destruct (authentication_is_sound toy_ObjectId alice_bearer alice_user
              w_alice _ alice_authenticates)
    as (h & scheme & tok & sess & Ha & Hsplit & Hlow & Hin & Htok & _ & Hid
        & Hu).
  exists h, scheme, tok, sess. repeat split; assumption.
Defined.
